(** * Tile server: cache-and-translate proxy for map tiles

    A shallow embedding of [tile_server.py] and the properties of its
    tile-resolution pipeline: the TMS/slippy row flip, the remote key and
    the local cache path of a tile, the HEAD and GET handlers with their
    blank-tile fallback, and the hourly cache clean-up; and of its routes
    for legends and plots.

    Conventions of the embedding.
    - A Python [int] is a [Z]; a Python [float] is an IEEE binary64 value,
      taken from the Standard Library's [SpecFloat] at precision 53 and
      maximal exponent 1024.  The interpreter's resource limits (memory,
      the configurable digit limit of int-to-str conversion) are not part
      of the model.
    - A [pathlib.Path] is the list of its components.  The file system
      looks a path up as it is written: there are no symbolic links, and
      the component [..] is a name like any other, which the operating
      system would resolve.
    - The local file system is a finite map from paths to nodes; the
      remote bucket is a finite map from object paths to bytes.  Each
      library call on either of them is one step of a state-and-exception
      monad, and leaves an event in the trace of the world.
    - Faults of the outside world are given by oracles of the run-time
      environment, at the calls the source guards with [try].
    - A log record keeps the level and the message, without the text of
      the exception that some messages end with. *)

From Stdlib Require Import ZArith String Ascii List DecimalString DecimalZ Lia.
From Stdlib Require Import Floats.SpecFloat.
From stdpp Require Import gmap strings list fin_maps.

Open Scope Z_scope.

(** ** Python values *)

Definition bytes : Type := list Byte.byte.

(** Exceptions that the modelled calls can raise. *)
Inductive pyexn : Type :=
  | TypeError
  | OverflowError
  | FileNotFoundError
  | FileExistsError
  | NotADirectoryError
  | IsADirectoryError
  | PermissionError
  | ConnectionError.

(** The outcome of evaluating an expression or a call. *)
Inductive outcome (A : Type) : Type :=
  | Returns (a : A)
  | Raises (e : pyexn).
Arguments Returns {A} a.
Arguments Raises {A} e.

Definition outcome_bind {A B} (o : outcome A) (k : A → outcome B) : outcome B :=
  match o with
  | Returns a => k a
  | Raises e => Raises e
  end.

Definition prec : Z := 53.
Definition emax : Z := 1024.

(** A number as [slippy_y_from_tms] can return it: its annotation says
    [int], but [2 ** z] is a float when [z] is negative. *)
Inductive pynum : Type :=
  | PyInt (n : Z)
  | PyFloat (f : spec_float).

(** [float(n)]: the nearest binary64 value, ties to even; an [int] that
    rounds beyond the largest finite float raises [OverflowError]. *)
Definition float_of_int (n : Z) : outcome spec_float :=
  match binary_normalize prec emax n 0 false with
  | S754_infinity _ => Raises OverflowError
  | f => Returns f
  end.

(** [2 ** z].  With [z >= 0] the result is an [int].  With [z < 0] both
    operands are converted to floats and the result is [pow(2.0, float(z))],
    which is the power of two itself, rounded (to a subnormal, or to zero on
    underflow); where [float(z)] differs from [z] the result is zero for
    both, so the exponent is taken from [z]. *)
Definition py_pow2 (z : Z) : outcome pynum :=
  if 0 <=? z then Returns (PyInt (2 ^ z))
  else outcome_bind (float_of_int z)
         (λ _, Returns (PyFloat (SFldexp prec emax (SFone prec emax) z))).

(** [a - b] for an [int] [b]: integer subtraction on an [int], and on a
    float the subtraction of [float(b)]. *)
Definition py_sub_int (a : pynum) (b : Z) : outcome pynum :=
  match a with
  | PyInt n => Returns (PyInt (n - b))
  | PyFloat f =>
      outcome_bind (float_of_int b) (λ g, Returns (PyFloat (SFsub prec emax f g)))
  end.

(** [slippy_y_from_tms(z, y)]: [(2 ** z) - 1 - y]. *)
Definition slippy_y_from_tms (z y : Z) : outcome pynum :=
  outcome_bind (py_pow2 z) (λ p,
  outcome_bind (py_sub_int p 1) (λ q,
  py_sub_int q y)).

(** [str(n)] for an [int]. *)
Definition str_of_int (n : Z) : string := NilZero.string_of_int (Z.to_int n).

(** Whether a number is an [int] object. *)
Definition is_int (v : pynum) : bool :=
  match v with PyInt _ => true | PyFloat _ => false end.

(** Whether a float lies strictly between two consecutive integers
    [n] and [n + 1], so that it is not a whole number. *)
Definition strictly_between (n : Z) (f : spec_float) : bool :=
  match float_of_int n, float_of_int (n + 1) with
  | Returns lo, Returns hi => SFltb lo f && SFltb f hi
  | _, _ => false
  end.

(** ** Strings and paths *)

(** [s.lstrip('/')]. *)
Fixpoint lstrip_slash (s : string) : string :=
  match s with
  | String c s' => if Ascii.eqb c "/" then lstrip_slash s' else s
  | EmptyString => s
  end.

(** [s.split('/')]. *)
Fixpoint split_slash (s : string) : list string :=
  match s with
  | EmptyString => [EmptyString]
  | String c s' =>
      if Ascii.eqb c "/" then EmptyString :: split_slash s'
      else match split_slash s' with
           | h :: t => String c h :: t
           | [] => [String c EmptyString]
           end
  end.

(** [s.endswith(suffix)]. *)
Definition endswith (s suffix : string) : bool :=
  let n := String.length s in
  let k := String.length suffix in
  (k <=? n)%nat && String.eqb (substring (n - k) k s) suffix.

(** A [pathlib.PurePosixPath], as the list of its components (its
    [parts]); an absolute path starts with its root. *)
Definition path : Type := list string.

(** The components a string contributes to a path: empty components and
    single dots are dropped. *)
Definition parse_parts (s : string) : list string :=
  List.filter (λ c, negb (String.eqb c "" || String.eqb c ".")) (split_slash s).

(** The root of a string that denotes an absolute path: one slash, or two
    when it starts with exactly two. *)
Definition anchor (s : string) : option string :=
  match s with
  | String c1 s1 =>
      if Ascii.eqb c1 "/" then
        match s1 with
        | String c2 s2 =>
            if Ascii.eqb c2 "/" then
              match s2 with
              | String c3 _ => if Ascii.eqb c3 "/" then Some "/" else Some "//"
              | EmptyString => Some "//"
              end
            else Some "/"
        | EmptyString => Some "/"
        end
      else None
  | EmptyString => None
  end.

(** [p / s]: an absolute [s] replaces [p], a relative one extends it. *)
Definition joinpath (p : path) (s : string) : path :=
  match anchor s with
  | Some root => root :: parse_parts s
  | None => p ++ parse_parts s
  end.

Declare Scope path_scope.
Delimit Scope path_scope with path.
Notation "p / s" := (joinpath p s) : path_scope.

(** [Path(s)]. *)
Definition Path (s : string) : path := joinpath [] s.

(** [p.parent]. *)
Definition parent (p : path) : path := removelast p.

(** [p.name]. *)
Definition name (p : path) : string := List.last p "".

(** [str(p)]. *)
Fixpoint path_str (p : path) : string :=
  match p with
  | [] => "."
  | [c] => c
  | c :: p' => if String.eqb c "/" then c +:+ path_str p' else c +:+ "/" +:+ path_str p'
  end.

(** All the ancestors of a path and the path itself, the shortest first. *)
Fixpoint prefixes (p : path) : list path :=
  match p with
  | [] => []
  | c :: p' => [c] :: List.map (cons c) (prefixes p')
  end.

(** ** The world: local file system, clock and trace *)

(** A node of the local file system, with its time of last modification.
    The time of a directory is the time of its creation: the changes of
    its entries, which update it on a real file system, are not followed. *)
Inductive node : Type :=
  | Dir (mtime : Z)
  | File (content : bytes) (mtime : Z).

Definition node_mtime (n : node) : Z :=
  match n with Dir t => t | File _ t => t end.

Definition is_dir (o : option node) : bool :=
  match o with Some (Dir _) => true | _ => false end.

Definition is_file (o : option node) : bool :=
  match o with Some (File _ _) => true | _ => false end.

Inductive loglevel : Type := INFO | WARNING | ERROR.

(** What a handler does to the outside world, in the order it does it. *)
Inductive event : Type :=
  | EvMkdir (p : path)
  | EvExists (p : path)
  | EvOpen (p : path)
  | EvRead (p : path)
  | EvWrite (p : path)
  | EvStat (p : path)
  | EvUnlink (p : path)
  | EvRglob (p : path)
  | EvRemoteGet (rpath : string) (lpath : path)
  | EvRemoteExists (rpath : string)
  | EvRemoteOpen (rpath : string)
  | EvLog (level : loglevel) (msg : string).

Record world : Type := World {
  fs : gmap path node;
  clock : Z;
  trace : list event
}.

(** Whether an event reaches the remote store. *)
Definition is_remote (e : event) : bool :=
  match e with
  | EvRemoteGet _ _ | EvRemoteExists _ | EvRemoteOpen _ => true
  | _ => false
  end.

(** Whether an event changes the local file system. *)
Definition is_local_write (e : event) : bool :=
  match e with
  | EvMkdir _ | EvWrite _ | EvUnlink _ | EvRemoteGet _ _ => true
  | _ => false
  end.

(** The local operations that the source guards against faults. *)
Inductive io_op : Type := OpRead | OpWrite | OpStat | OpUnlink.

(** The run-time environment of the server: the objects of the bucket by
    their [bucket/key] path, the remote calls that fail, the local
    operations that fail, and Python's [repr] of a float. *)
Record runtime : Type := Runtime {
  bucket : gmap string bytes;
  net_fault : string → bool;
  io_fault : io_op → path → bool;
  float_repr : spec_float → string
}.

(** ** The state-and-exception monad of the handlers *)

Definition M (A : Type) : Type := world → outcome A * world.

Definition ret {A} (a : A) : M A := λ w, (Returns a, w).

Definition raise {A} (e : pyexn) : M A := λ w, (Raises e, w).

Definition bind {A B} (m : M A) (k : A → M B) : M B :=
  λ w, match m w with
       | (Returns a, w') => k a w'
       | (Raises e, w') => (Raises e, w')
       end.

(** [try: m  except Exception as e: h e]. *)
Definition try_except {A} (m : M A) (h : pyexn → M A) : M A :=
  λ w, match m w with
       | (Returns a, w') => (Returns a, w')
       | (Raises e, w') => h e w'
       end.

Definition lift {A} (o : outcome A) : M A := λ w, (o, w).

Declare Scope py_scope.
Delimit Scope py_scope with py.
Notation "x <- m ;; k" := (bind m (λ x, k))
  (at level 100, m at next level, k at level 200, right associativity) : py_scope.
Notation "m ;; k" := (bind m (λ _, k))
  (at level 100, k at level 200, right associativity) : py_scope.
Open Scope py_scope.

Definition emit (e : event) : M unit :=
  λ w, (Returns tt, World (fs w) (clock w) (trace w ++ [e])).

Definition get_fs : M (gmap path node) := λ w, (Returns (fs w), w).

Definition put_fs (f : gmap path node) : M unit :=
  λ w, (Returns tt, World f (clock w) (trace w)).

(** [logger.info], [logger.warning], [logger.error]. *)
Definition log (level : loglevel) (msg : string) : M unit := emit (EvLog level msg).

(** [time.time()]. *)
Definition time_time : M Z := λ w, (Returns (clock w), w).

(** [time.sleep(d)]. *)
Definition time_sleep (d : Z) : M unit :=
  λ w, (Returns tt, World (fs w) (clock w + d) (trace w)).

(** Awaiting the coroutine of an [async def] runs it. *)
Definition await_coroutine {A} (m : M A) : M A := m.

(** Awaiting an object that is not awaitable raises [TypeError]. *)
Definition await_object {A B} (obj : A) : M B := raise TypeError.

(** ** Local file system calls *)

(** The directory a path lies in exists: the current directory always
    does. *)
Definition parent_ready (f : gmap path node) (p : path) : bool :=
  match parent p with
  | [] => true
  | q => is_dir (f !! q)
  end.

(** One step of [mkdir -p] for the path [p], at its component [q]: a
    missing component is created, a directory is kept, a regular file in
    the way is an error, [FileExistsError] at the path itself and
    [NotADirectoryError] at one of its ancestors. *)
Definition mkdir_step (t : Z) (p : path) (acc : outcome (gmap path node)) (q : path)
  : outcome (gmap path node) :=
  outcome_bind acc (λ f,
    match f !! q with
    | None => Returns (<[q := Dir t]> f)
    | Some (Dir _) => Returns f
    | Some (File _ _) =>
        Raises (if bool_decide (q = p) then FileExistsError else NotADirectoryError)
    end).

Definition mkdir_p (t : Z) (p : path) (f : gmap path node) : outcome (gmap path node) :=
  List.fold_left (mkdir_step t p) (prefixes p) (Returns f).

(** [p.mkdir(parents=True, exist_ok=True)]. *)
Definition mkdir_parents (p : path) : M unit :=
  emit (EvMkdir p) ;;
  λ w, match mkdir_p (clock w) p (fs w) with
       | Returns f => (Returns tt, World f (clock w) (trace w))
       | Raises e => (Raises e, w)
       end.

(** Whether a path exists: the current directory always does. *)
Definition exists_in (f : gmap path node) (p : path) : bool :=
  match p with
  | [] => true
  | _ => bool_decide (is_Some (f !! p))
  end.

(** [p.exists()]. *)
Definition path_exists (p : path) : M bool :=
  emit (EvExists p) ;;
  f <- get_fs ;;
  ret (exists_in f p).

Section Runtime.

Variable R : runtime.

(** Reading the bytes of the file at [p]. *)
Definition read_file (p : path) : M bytes :=
  f <- get_fs ;;
  if io_fault R OpRead p then raise PermissionError
  else match f !! p with
       | Some (File data _) => ret data
       | Some (Dir _) => raise IsADirectoryError
       | None => raise FileNotFoundError
       end.

(** Creating or replacing the file at [p]; a failed write leaves the file
    system as it was. *)
Definition write_file (p : path) (data : bytes) : M unit :=
  λ w,
    if io_fault R OpWrite p then (Raises PermissionError, w)
    else if negb (parent_ready (fs w) p) then (Raises FileNotFoundError, w)
    else if is_dir (fs w !! p) then (Raises IsADirectoryError, w)
    else (Returns tt, World (<[p := File data (clock w)]> (fs w)) (clock w) (trace w)).

(** [p.read_bytes()]. *)
Definition read_bytes (p : path) : M bytes := emit (EvRead p) ;; read_file p.

(** [p.write_bytes(data)]. *)
Definition write_bytes (p : path) (data : bytes) : M unit :=
  emit (EvWrite p) ;; write_file p data.

(** [open(p, "rb")], as the bytes that the response will stream. *)
Definition open_rb (p : path) : M bytes := emit (EvOpen p) ;; read_file p.

(** [p.stat().st_mtime]. *)
Definition stat_mtime (p : path) : M Z :=
  emit (EvStat p) ;;
  f <- get_fs ;;
  if io_fault R OpStat p then raise PermissionError
  else match f !! p with
       | Some n => ret (node_mtime n)
       | None => raise FileNotFoundError
       end.

(** [p.unlink()]. *)
Definition unlink (p : path) : M unit :=
  emit (EvUnlink p) ;;
  f <- get_fs ;;
  if io_fault R OpUnlink p then raise PermissionError
  else match f !! p with
       | Some (File _ _) => put_fs (delete p f)
       | Some (Dir _) => raise IsADirectoryError
       | None => raise FileNotFoundError
       end.

(** Whether [p] lies below the directory [root]. *)
Definition is_below (root p : path) : bool :=
  bool_decide (root `prefix_of` p) && negb (bool_decide (p = root)).

(** [root.rglob("*.png")]: every entry below [root] whose name ends in
    [.png], in the order the file system lists them.  The generator of the
    source is taken as the list of the entries present when the sweep
    starts. *)
Definition rglob_png (root : path) : M (list path) :=
  emit (EvRglob root) ;;
  f <- get_fs ;;
  ret (List.filter (λ p, is_below root p && endswith (name p) ".png")
         (List.map fst (map_to_list f))).

(** ** The remote store *)

(** [fs.get(rpath, lpath)]: download an object of the bucket to a local
    file. *)
Definition fs_get (rpath : string) (lpath : path) : M unit :=
  emit (EvRemoteGet rpath lpath) ;;
  if net_fault R rpath then raise ConnectionError
  else match bucket R !! rpath with
       | Some data => write_file lpath data
       | None => raise FileNotFoundError
       end.

(** [fs.exists(rpath)]. *)
Definition fs_exists (rpath : string) : M bool :=
  emit (EvRemoteExists rpath) ;;
  if net_fault R rpath then raise ConnectionError
  else ret (bool_decide (is_Some (bucket R !! rpath))).

(** [with fs.open(rpath, "rb") as f: data = f.read()]: the bytes of an
    object of the bucket. *)
Definition fs_open_read (rpath : string) : M bytes :=
  emit (EvRemoteOpen rpath) ;;
  if net_fault R rpath then raise ConnectionError
  else match bucket R !! rpath with
       | Some data => ret data
       | None => raise FileNotFoundError
       end.

End Runtime.

(** ** Configuration *)

Definition BUCKET : string := "optimal-stargazing-locator".

(** The bucket prefix of every tile layer. *)
Definition LAYER_PATHS : gmap string string :=
  list_to_map
    [ ("SkyCover_Tiles", "data-layer-tiles/SkyCover_Tiles");
      ("PrecipProb_Tiles", "data-layer-tiles/PrecipProb_Tiles");
      ("Temp_Tiles", "data-layer-tiles/Temp_Tiles");
      ("Stargazing_Tiles", "data-layer-tiles/Stargazing_Tiles");
      ("LightPollution_Tiles", "light-pollution-data/zenith_ConUSA_colored_tiles") ].

(** The object of every legend image, by the file name of its route. *)
Definition LEGEND_PATHS : gmap string string :=
  list_to_map
    [ ("Temp_Dark.png", "plots/Temp_Legend_Dark.png");
      ("Temp_Light.png", "plots/Temp_Legend_Light.png");
      ("Stargazing_Dark.png", "plots/Stargazing_Legend_Dark.png");
      ("Stargazing_Light.png", "plots/Stargazing_Legend_Light.png");
      ("SkyCover_Dark.png", "plots/SkyCover_Legend_Dark.png");
      ("SkyCover_Light.png", "plots/SkyCover_Legend_Light.png");
      ("PrecipProb_Dark.png", "plots/PrecipProb_Legend_Dark.png");
      ("PrecipProb_Light.png", "plots/PrecipProb_Legend_Light.png");
      ("LightPollution_Dark.png", "plots/LightPollution_Legend_Dark.png");
      ("LightPollution_Light.png", "plots/LightPollution_Legend_Light.png") ].

Definition blank_tile_key : string := "data-layer-tiles/blank_tile_256x256.png".

Definition CACHE_DIR : path := Path "tile_cache".

Definition CACHE_EXPIRY_SECONDS : Z := 12 * 3600.

(** The start of the module creates the cache directory:
    [CACHE_DIR.mkdir(exist_ok=True)]. *)
Definition startup_world (t : Z) : world :=
  World {[ CACHE_DIR := Dir t ]} t [].

(** [s3key(key)]: the path [bucket/key] of an object. *)
Definition s3key (key : string) : string := BUCKET +:+ "/" +:+ lstrip_slash key.

(** ** Responses *)

Inductive response : Type :=
  | Response (status_code : Z) (content : string)
  | StreamingResponse (body : bytes) (headers : list (string * string))
      (media_type : option string).

Definition status (r : response) : Z :=
  match r with
  | Response s _ => s
  | StreamingResponse _ _ _ => 200
  end.

(** The bytes a streaming response carries. *)
Definition streamed (r : response) : option bytes :=
  match r with
  | Response _ _ => None
  | StreamingResponse b _ _ => Some b
  end.

(** The responses of the legend and plot routes, which carry a media
    type and headers: [Response(content, status_code, headers,
    media_type)] with a [str] or a [bytes] content and the status 200
    when none is given. *)
Inductive content : Type :=
  | Text (s : string)
  | Data (b : bytes).

Record asset_response : Type := AssetResponse {
  asset_status : Z;
  asset_content : content;
  asset_media_type : option string;
  asset_headers : list (string * string)
}.

(** The double quote, and the JSON text [{"error":"msg"}] of the error
    responses. *)
Definition dquote : string := String (ascii_of_nat 34) EmptyString.

Definition error_json (msg : string) : string :=
  "{" +:+ dquote +:+ "error" +:+ dquote +:+ ":" +:+ dquote +:+ msg +:+ dquote +:+ "}".

(** [s.lower()].  The letters of ASCII are changed; on the UTF-8 bytes of
    a string this decides a test for an ASCII suffix as Python does, since
    no character outside ASCII has a lower case that ends in a character
    of ASCII other than [k]. *)
Definition lower_ascii (c : ascii) : ascii :=
  let n := nat_of_ascii c in
  if (65 <=? n)%nat && (n <=? 90)%nat then ascii_of_nat (n + 32) else c.

Fixpoint lower (s : string) : string :=
  match s with
  | EmptyString => EmptyString
  | String c s' => String (lower_ascii c) (lower s')
  end.

Section Handlers.

Variable R : runtime.

(** A number inside an f-string. *)
Definition format_num (v : pynum) : string :=
  match v with
  | PyInt n => str_of_int n
  | PyFloat f => float_repr R f
  end.

(** The local cache path of a tile:
    [CACHE_DIR / layer / timestamp / str(z) / str(x) / f"{slippy_y}.png"]. *)
Definition local_path_of (layer timestamp : string) (z x : Z) (slippy_y : pynum) : path :=
  (CACHE_DIR / layer / timestamp / str_of_int z / str_of_int x
     / (format_num slippy_y +:+ ".png"))%path.

(** The two shapes of the key of a tile in the bucket. *)
Definition key_static (prefix : string) (z x : Z) (slippy_y : pynum) : string :=
  prefix +:+ "/" +:+ str_of_int z +:+ "/" +:+ str_of_int x +:+ "/"
    +:+ format_num slippy_y +:+ ".png".

Definition key_timestamped (prefix timestamp : string) (z x : Z) (slippy_y : pynum)
  : string :=
  prefix +:+ "/" +:+ timestamp +:+ "/" +:+ str_of_int z +:+ "/" +:+ str_of_int x
    +:+ "/" +:+ format_num slippy_y +:+ ".png".

(** The key of a tile in the bucket: the light pollution layer at the
    timestamp [static] has no timestamp in its key. *)
Definition key_of (prefix layer timestamp : string) (z x : Z) (slippy_y : pynum) : string :=
  if String.eqb layer "LightPollution_Tiles" && String.eqb timestamp "static"
  then key_static prefix z x slippy_y
  else key_timestamped prefix timestamp z x slippy_y.

(** *** Blank tile fallback *)

Definition blank_tile_path : path := (CACHE_DIR / "blank_tile.png")%path.

(** [serve_blank_tile(cache_path)].  The first part yields a response when
    the function returns early, on a failed download of the blank tile. *)
Definition serve_blank_tile (cache_path : path) : M response :=
  present <- path_exists blank_tile_path ;;
  early <- (if present then ret None
            else try_except
                   (fs_get R (s3key blank_tile_key) blank_tile_path ;;
                    log INFO "Cached blank tile locally." ;;
                    ret None)
                   (λ e, log ERROR ("Failed to fetch blank tile " +:+ blank_tile_key) ;;
                         ret (Some (Response 500 "Tile and fallback missing")))) ;;
  match early with
  | Some r => ret r
  | None =>
      try_except
        (mkdir_parents (parent cache_path) ;;
         data <- read_bytes R blank_tile_path ;;
         write_bytes R cache_path data)
        (λ _, ret tt) ;;
      f <- open_rb R blank_tile_path ;;
      ret (StreamingResponse f [] (Some "image/png"))
  end.

(** *** Tile serving endpoints *)

(** [head_tile_with_timestamp(layer, timestamp, z, x, y)]. *)
Definition head_tile_with_timestamp (layer timestamp : string) (z x y : Z) : M response :=
  match LAYER_PATHS !! layer with
  | None =>
      log WARNING ("Invalid layer: " +:+ layer) ;;
      ret (Response 404 "Layer not found")
  | Some prefix =>
      slippy_y <- lift (slippy_y_from_tms z y) ;;
      let local_path := local_path_of layer timestamp z x slippy_y in
      present <- path_exists local_path ;;
      if present then
        log INFO ("Tile found locally at " +:+ path_str local_path) ;;
        ret (Response 200 "")
      else
        let key := key_of prefix layer timestamp z x slippy_y in
        try_except
          (found <- fs_exists R (s3key key) ;;
           ret (Response (if found then 200 else 404) ""))
          (λ e, log WARNING ("HEAD failed for " +:+ key) ;;
                ret (Response 404 ""))
  end.

Definition tile_headers : list (string * string) :=
  [ ("Cache-Control", "public, max-age=604800"); ("Content-Type", "image/png") ].

(** [get_tile_with_timestamp(layer, timestamp, z, x, y)].  The fallback
    awaits the response that [serve_blank_tile], a plain function, has
    returned. *)
Definition get_tile_with_timestamp (layer timestamp : string) (z x y : Z) : M response :=
  match LAYER_PATHS !! layer with
  | None =>
      log WARNING ("Invalid layer requested: " +:+ layer) ;;
      ret (Response 404 "Layer not found")
  | Some prefix =>
      slippy_y <- lift (slippy_y_from_tms z y) ;;
      let local_path := local_path_of layer timestamp z x slippy_y in
      mkdir_parents (parent local_path) ;;
      present <- path_exists local_path ;;
      if present then
        f <- open_rb R local_path ;;
        ret (StreamingResponse f tile_headers None)
      else
        let key := key_of prefix layer timestamp z x slippy_y in
        try_except
          (fs_get R (s3key key) local_path ;;
           f <- open_rb R local_path ;;
           ret (StreamingResponse f tile_headers None))
          (λ e, log WARNING ("Tile miss " +:+ key) ;;
                r <- serve_blank_tile local_path ;;
                await_object r)
  end.

(** The routes without a timestamp. *)
Definition head_tile_static (layer : string) (z x y : Z) : M response :=
  await_coroutine (head_tile_with_timestamp layer "static" z x y).

Definition get_tile_static (layer : string) (z x y : Z) : M response :=
  await_coroutine (get_tile_with_timestamp layer "static" z x y).

(** [fallback_debug(path)]: the route of the HEAD requests that no tile
    route matches. *)
Definition fallback_debug (path : string) : M response :=
  log WARNING ("Unmatched HEAD request for tile: " +:+ path) ;;
  ret (Response 404 "Unmatched HEAD request").

(** *** Legends and plots *)

Definition not_found_json : asset_response :=
  AssetResponse 404 (Text (error_json "File not found")) (Some "application/json") [].

(** [get_legend(filename)].  [not key] holds for a missing file name and
    for an empty key. *)
Definition get_legend (filename : string) : M asset_response :=
  match LEGEND_PATHS !! filename with
  | None =>
      ret (AssetResponse 404 (Text (error_json "Invalid legend")) (Some "application/json") [])
  | Some key =>
      if String.eqb key "" then
        ret (AssetResponse 404 (Text (error_json "Invalid legend"))
               (Some "application/json") [])
      else
        try_except
          (data <- fs_open_read R (s3key key) ;;
           ret (AssetResponse 200 (Data data) (Some "image/png")
                  [("Cache-Control", "public, max-age=604800")]))
          (λ e, log ERROR ("Legend fetch error " +:+ key) ;;
                ret not_found_json)
  end.

(** [head_legend(filename)]. *)
Definition head_legend (filename : string) : M response :=
  match LEGEND_PATHS !! filename with
  | None => ret (Response 404 "")
  | Some key =>
      if String.eqb key "" then ret (Response 404 "")
      else
        try_except
          (found <- fs_exists R (s3key key) ;;
           ret (if found then Response 200 "" else Response 404 ""))
          (λ _, ret (Response 404 ""))
  end.

(** [get_plot_gif(filename)]. *)
Definition get_plot_gif (filename : string) : M asset_response :=
  let key := "plots/" +:+ filename in
  try_except
    (data <- fs_open_read R (s3key key) ;;
     let mt := if endswith (lower filename) ".gif" then "image/gif" else "image/png" in
     ret (AssetResponse 200 (Data data) (Some mt)
            [("Cache-Control", "public, max-age=1800")]))
    (λ e, log ERROR ("Plot fetch error " +:+ key) ;;
          ret not_found_json).

(** [head_plot_gif(filename)]. *)
Definition head_plot_gif (filename : string) : M response :=
  let key := "plots/" +:+ filename in
  try_except
    (found <- fs_exists R (s3key key) ;;
     ret (if found then Response 200 "" else Response 404 ""))
    (λ _, ret (Response 404 "")).

(** [health_check()]. *)
Definition health_check : list (string * string) := [("status", "ok")].

(** *** Cache clean-up *)

(** The body of the loop over the cached tiles, for one tile. *)
Definition cleanup_tile (now : Z) (deleted : Z) (tile : path) : M Z :=
  try_except
    (mtime <- stat_mtime R tile ;;
     if now - mtime >? CACHE_EXPIRY_SECONDS then
       unlink R tile ;;
       ret (deleted + 1)
     else ret deleted)
    (λ e, log ERROR ("Failed to delete " +:+ path_str tile) ;;
          ret deleted).

(** [for tile in tiles: ...], threading the counter. *)
Fixpoint cleanup_tiles (now : Z) (deleted : Z) (tiles : list path) : M Z :=
  match tiles with
  | [] => ret deleted
  | tile :: rest =>
      deleted' <- cleanup_tile now deleted tile ;;
      cleanup_tiles now deleted' rest
  end.

(** One round of the [while True] loop of [periodic_cache_cleanup],
    without its sleep: it returns the number of deleted tiles. *)
Definition cleanup_sweep : M Z :=
  now <- time_time ;;
  tiles <- rglob_png CACHE_DIR ;;
  deleted <- cleanup_tiles now 0 tiles ;;
  log INFO ("Cache cleanup complete. Deleted " +:+ str_of_int deleted +:+ " tiles.") ;;
  ret deleted.

(** [periodic_cache_cleanup()], for a given number of rounds of its
    endless loop. *)
Fixpoint periodic_cache_cleanup (rounds : nat) : M unit :=
  match rounds with
  | O => ret tt
  | S n =>
      cleanup_sweep ;;
      time_sleep 3600 ;;
      periodic_cache_cleanup n
  end.

End Handlers.

(** ** Predicates of the statements *)

(** Whether a string contains a slash. *)
Fixpoint has_slash (s : string) : bool :=
  match s with
  | EmptyString => false
  | String c s' => Ascii.eqb c "/" || has_slash s'
  end.

(** A string that is one component of a path: not empty, not a single
    dot, without a slash. *)
Definition is_component (s : string) : bool :=
  negb (String.eqb s "") && negb (String.eqb s ".") && negb (has_slash s).

(** The first character of a string is neither a dot nor a slash. *)
Definition starts_numeric (s : string) : bool :=
  match s with
  | String c _ => negb (Ascii.eqb c ".") && negb (Ascii.eqb c "/")
  | EmptyString => false
  end.

(** A runtime with an empty bucket and no faults. *)
Definition plain_runtime : runtime :=
  Runtime ∅ (λ _, false) (λ _ _, false) (λ _, "nan").

(** A computation respects a relation between worlds when the world it
    ends in, whatever its outcome, is related to the world it starts in. *)
Definition respects (rel : world → world → Prop) {A} (m : M A) : Prop :=
  ∀ w, rel w (snd (m w)).

(** The world grows: directories stay directories, the clock stands, and
    the trace is extended. *)
Definition grows (w w' : world) : Prop :=
  (∀ q, is_dir (fs w !! q) = true → is_dir (fs w' !! q) = true) ∧
  clock w' = clock w ∧
  trace w `prefix_of` trace w'.

(** The world is only observed: file system and clock are the same, and
    the trace is extended by events that do not write to the file system. *)
Definition observed (w w' : world) : Prop :=
  fs w' = fs w ∧
  clock w' = clock w ∧
  ∃ evs, trace w' = trace w ++ evs ∧ forallb (λ e, negb (is_local_write e)) evs = true.

(** Sample data: a tile and the blank tile, a bucket that holds both, and
    a bucket that holds the blank tile only. *)
Definition sample_tile : bytes := [Byte.x89; Byte.x50; Byte.x4e; Byte.x47; Byte.x01].

Definition sample_blank : bytes := [Byte.x89; Byte.x50; Byte.x4e; Byte.x47; Byte.x00].

Definition full_runtime : runtime :=
  Runtime
    {[ s3key "data-layer-tiles/SkyCover_Tiles/2025062818/3/2/2.png" := sample_tile;
       s3key blank_tile_key := sample_blank ]}
    (λ _, false) (λ _ _, false) (λ _, "nan").

Definition blank_only_runtime : runtime :=
  Runtime {[ s3key blank_tile_key := sample_blank ]}
    (λ _, false) (λ _ _, false) (λ _, "nan").

(** The world after a first GET of the sample tile from the full bucket. *)
Definition warm_world : world :=
  snd (get_tile_with_timestamp full_runtime "SkyCover_Tiles" "2025062818" 3 2 5
         (startup_world 100)).

(** The world after a first GET of the sample tile from the bucket that
    holds the blank tile only. *)
Definition missed_world : world :=
  snd (get_tile_with_timestamp blank_only_runtime "SkyCover_Tiles" "2025062818" 3 2 5
         (startup_world 100)).

(** An entry that [rglob] finds in the cache: it exists, lies below the
    cache directory, and its name ends in [.png]. *)
Definition is_cached_png (f : gmap path node) (p : path) : bool :=
  bool_decide (is_Some (f !! p)) && is_below CACHE_DIR p && endswith (name p) ".png".

(** A world with two tiles in the cache, written 13 hours and 1 hour
    before the time of the clock. *)
Definition old_tile : path := CACHE_DIR ++ ["SkyCover_Tiles"; "2025062818"; "3"; "2"; "2.png"].

Definition young_tile : path := CACHE_DIR ++ ["SkyCover_Tiles"; "2025062818"; "3"; "2"; "3.png"].

Definition aged_world : world :=
  World {[ CACHE_DIR := Dir 0;
           old_tile := File sample_tile (100000 - 13 * 3600);
           young_tile := File sample_tile (100000 - 3600) ]}
    100000 [].

(** The float [-0.5], and a runtime whose [repr] of it is Python's. *)
Definition neg_half : spec_float := S754_finite true 4503599627370496 (-53).

Definition repr_runtime : runtime :=
  Runtime ∅ (λ _, false) (λ _ _, false) (λ _, "-0.5").

(** A runtime whose bucket holds one legend and one plot. *)
Definition asset_runtime : runtime :=
  Runtime
    {[ s3key "plots/Temp_Legend_Dark.png" := sample_tile;
       s3key "plots/forecast.GIF" := sample_blank ]}
    (λ _, false) (λ _ _, false) (λ _, "nan").

(** A component that the file system takes as a name: a component other
    than [..]. *)
Definition is_name (s : string) : bool :=
  is_component s && negb (String.eqb s "..").

(** * Properties *)

(** ** Strings and path components *)

Lemma split_slash_no_slash s : has_slash s = false → split_slash s = [s].
Proof.
  induction s as [|c s IH]; simpl; [done|].
  destruct (Ascii.eqb c "/"); simpl; [done|].
  intros H. by rewrite (IH H).
Qed.

Lemma anchor_no_slash s : has_slash s = false → anchor s = None.
Proof.
  destruct s as [|c s]; simpl; [done|].
  by destruct (Ascii.eqb c "/").
Qed.

Lemma joinpath_component p s : is_component s = true → (p / s)%path = p ++ [s].
Proof.
  unfold is_component, joinpath, parse_parts.
  intros H. apply andb_prop in H as [H Hs]. apply andb_prop in H as [He Hd].
  apply negb_true_iff in Hs, He, Hd.
  rewrite (anchor_no_slash _ Hs), (split_slash_no_slash _ Hs). simpl.
  by rewrite He, Hd.
Qed.

Lemma has_slash_app s t : has_slash (s +:+ t) = has_slash s || has_slash t.
Proof.
  induction s as [|c s IH]; simpl; [done|].
  by rewrite IH, orb_assoc.
Qed.

Lemma has_slash_uint d : has_slash (NilEmpty.string_of_uint d) = false.
Proof. induction d as [|d IH|d IH|d IH|d IH|d IH|d IH|d IH|d IH|d IH|d IH]; simpl; done. Qed.

Lemma string_of_uint_nonempty d : d ≠ Decimal.Nil → NilEmpty.string_of_uint d ≠ "".
Proof. destruct d; simpl; done. Qed.

Lemma has_slash_str_of_int n : has_slash (str_of_int n) = false.
Proof.
  unfold str_of_int, NilZero.string_of_int, NilZero.string_of_uint.
  destruct (Z.to_int n) as [d|d]; destruct d; simpl; rewrite ?has_slash_uint; done.
Qed.

Lemma starts_numeric_str_of_int n : starts_numeric (str_of_int n) = true.
Proof.
  unfold str_of_int, NilZero.string_of_int, NilZero.string_of_uint.
  destruct (Z.to_int n) as [d|d]; destruct d; done.
Qed.

Lemma is_component_str_of_int n : is_component (str_of_int n) = true.
Proof.
  unfold is_component. rewrite has_slash_str_of_int.
  pose proof (starts_numeric_str_of_int n) as H.
  destruct (str_of_int n) as [|c s]; [done|].
  simpl in H. apply andb_prop in H as [Hd _]. apply negb_true_iff in Hd.
  simpl. by rewrite Hd.
Qed.

Lemma is_component_png s :
  has_slash s = false → is_component (s +:+ ".png") = true.
Proof.
  intros H. unfold is_component. rewrite has_slash_app, H. simpl.
  destruct s as [|c [|c' s]]; simpl; [done| |]; by destruct (Ascii.eqb c ".").
Qed.

Lemma registered_layers layer prefix :
  LAYER_PATHS !! layer = Some prefix →
  (layer, prefix) ∈
    [ ("SkyCover_Tiles", "data-layer-tiles/SkyCover_Tiles");
      ("PrecipProb_Tiles", "data-layer-tiles/PrecipProb_Tiles");
      ("Temp_Tiles", "data-layer-tiles/Temp_Tiles");
      ("Stargazing_Tiles", "data-layer-tiles/Stargazing_Tiles");
      ("LightPollution_Tiles", "light-pollution-data/zenith_ConUSA_colored_tiles") ].
Proof. unfold LAYER_PATHS. apply elem_of_list_to_map_2. Qed.

Lemma registered_layer_component layer prefix :
  LAYER_PATHS !! layer = Some prefix → is_component layer = true.
Proof.
  intros H. apply registered_layers in H.
  repeat (apply elem_of_cons in H as [H|H]; [by inversion H|]).
  by apply elem_of_nil in H.
Qed.

Lemma registered_prefix_lstrip layer prefix :
  LAYER_PATHS !! layer = Some prefix → ∀ s, lstrip_slash (prefix +:+ s) = prefix +:+ s.
Proof.
  intros H s. apply registered_layers in H.
  repeat (apply elem_of_cons in H as [H|H]; [by inversion H|]).
  by apply elem_of_nil in H.
Qed.

(** ** The row flip *)

Lemma slippy_nonneg_zoom z y :
  0 ≤ z → slippy_y_from_tms z y = Returns (PyInt (2 ^ z - 1 - y)).
Proof.
  intros Hz. unfold slippy_y_from_tms, py_pow2.
  destruct (Z.leb_spec 0 z); [done|lia].
Qed.

(** C5: for a zoom [z >= 0] and a row in [[0, 2^z)], the flipped row is
    again in that range, and flipping it gives the row back. *)
Theorem slippy_y_involution z row :
  0 ≤ z → 0 ≤ row < 2 ^ z →
  ∃ row', slippy_y_from_tms z row = Returns (PyInt row') ∧
          0 ≤ row' < 2 ^ z ∧
          slippy_y_from_tms z row' = Returns (PyInt row).
Proof.
  intros Hz Hrow. exists (2 ^ z - 1 - row).
  rewrite !slippy_nonneg_zoom by done.
  split; [done|]. split; [lia|]. do 2 f_equal. lia.
Qed.

Lemma slippy_y_involution_witness :
  ∃ row', slippy_y_from_tms 3 5 = Returns (PyInt row') ∧
          0 ≤ row' < 2 ^ 3 ∧
          slippy_y_from_tms 3 row' = Returns (PyInt 5).
Proof. apply (slippy_y_involution 3 5); [lia | simpl; lia]. Defined.

(** ** Keys and cache paths *)

Lemma string_length_app s t :
  String.length (s +:+ t) = (String.length s + String.length t)%nat.
Proof. induction s as [|c s IH]; simpl; [done|]. by rewrite IH. Qed.

Lemma key_shapes_differ R prefix timestamp z x row :
  key_static R prefix z x row ≠ key_timestamped R prefix timestamp z x row.
Proof.
  unfold key_static, key_timestamped. intros H.
  apply (f_equal String.length) in H.
  rewrite !string_length_app in H. simpl in H. lia.
Qed.

Lemma key_of_cases R prefix layer timestamp z x row :
  (layer = "LightPollution_Tiles" ∧ timestamp = "static" ∧
   key_of R prefix layer timestamp z x row = key_static R prefix z x row) ∨
  (¬ (layer = "LightPollution_Tiles" ∧ timestamp = "static") ∧
   key_of R prefix layer timestamp z x row = key_timestamped R prefix timestamp z x row).
Proof.
  unfold key_of.
  destruct (String.eqb_spec layer "LightPollution_Tiles") as [Hl|Hl];
    destruct (String.eqb_spec timestamp "static") as [Ht|Ht]; simpl;
    [left; done | right | right | right]; (split; [intros [? ?]; done | done]).
Qed.

Lemma local_path_of_components R layer timestamp z x row :
  is_component layer = true → is_component timestamp = true →
  local_path_of R layer timestamp z x (PyInt row)
  = CACHE_DIR ++ [layer; timestamp; str_of_int z; str_of_int x; str_of_int row +:+ ".png"].
Proof.
  intros Hl Ht. unfold local_path_of, format_num.
  rewrite (joinpath_component _ layer Hl), (joinpath_component _ timestamp Ht).
  rewrite !(joinpath_component _ (str_of_int _)) by apply is_component_str_of_int.
  rewrite (joinpath_component _ (str_of_int row +:+ ".png"))
    by apply is_component_png, has_slash_str_of_int.
  by rewrite <- !app_assoc.
Qed.







(** ** Unknown layers *)

(** C7: for a layer outside the registry the GET handler returns the 404
    response [Layer not found] and the HEAD handler returns a 404; both
    return normally, leave the file system alone, and add only a warning
    to the trace, so that neither calls the remote store. *)
Theorem unknown_layer_not_found R layer timestamp z x y w :
  LAYER_PATHS !! layer = None →
  get_tile_with_timestamp R layer timestamp z x y w
  = (Returns (Response 404 "Layer not found"),
     World (fs w) (clock w)
       (trace w ++ [EvLog WARNING ("Invalid layer requested: " +:+ layer)])) ∧
  head_tile_with_timestamp R layer timestamp z x y w
  = (Returns (Response 404 "Layer not found"),
     World (fs w) (clock w) (trace w ++ [EvLog WARNING ("Invalid layer: " +:+ layer)])) ∧
  is_remote (EvLog WARNING ("Invalid layer requested: " +:+ layer)) = false ∧
  is_remote (EvLog WARNING ("Invalid layer: " +:+ layer)) = false.
Proof.
  intros H. unfold get_tile_with_timestamp, head_tile_with_timestamp.
  rewrite H. done.
Qed.

Lemma unknown_layer_not_found_witness :
  get_tile_with_timestamp plain_runtime "unknown_layer" "2025062818" 3 2 5 (startup_world 0)
  = (Returns (Response 404 "Layer not found"),
     World (fs (startup_world 0)) (clock (startup_world 0))
       (trace (startup_world 0)
          ++ [EvLog WARNING ("Invalid layer requested: " +:+ "unknown_layer")])) ∧
  head_tile_with_timestamp plain_runtime "unknown_layer" "2025062818" 3 2 5 (startup_world 0)
  = (Returns (Response 404 "Layer not found"),
     World (fs (startup_world 0)) (clock (startup_world 0))
       (trace (startup_world 0) ++ [EvLog WARNING ("Invalid layer: " +:+ "unknown_layer")])) ∧
  is_remote (EvLog WARNING ("Invalid layer requested: " +:+ "unknown_layer")) = false ∧
  is_remote (EvLog WARNING ("Invalid layer: " +:+ "unknown_layer")) = false.
Proof.
  apply (unknown_layer_not_found plain_runtime "unknown_layer" "2025062818" 3 2 5
           (startup_world 0)).
  reflexivity.
Defined.

(** ** Existence checks *)

Lemma joinpath_nonempty p s : p ≠ [] → (p / s)%path ≠ [].
Proof.
  unfold joinpath. destruct (anchor s); [done|].
  intros Hp Happ. by apply app_eq_nil in Happ as [? _].
Qed.

Lemma local_path_of_nonempty R layer timestamp z x row :
  local_path_of R layer timestamp z x row ≠ [].
Proof. unfold local_path_of. do 5 apply joinpath_nonempty. by vm_compute. Qed.

Lemma exists_in_nonempty f p :
  p ≠ [] → exists_in f p = bool_decide (is_Some (f !! p)).
Proof. by destruct p. Qed.

(** Running the monad: the combinators and the calls without a fault
    oracle are unfolded, and the fields of the resulting worlds reduced. *)
Ltac mrun :=
  cbv beta iota delta
    [bind ret raise lift emit log get_fs put_fs try_except path_exists fs_exists
     time_time time_sleep await_coroutine await_object];
  cbn [fs clock trace];
  rewrite <- ?app_assoc; cbn [app].

(** C6: for a request with a registered layer whose row is computed, the
    HEAD handler answers 200 without a remote call when the cache path
    exists locally; otherwise it makes one remote existence check and
    answers 200 or 404 as the object is present or not, and 404 when that
    check fails.  It returns normally in each case and leaves the file
    system alone. *)
Theorem head_exists R layer prefix timestamp z x y row w :
  LAYER_PATHS !! layer = Some prefix →
  slippy_y_from_tms z y = Returns row →
  let p := local_path_of R layer timestamp z x row in
  let key := s3key (key_of R prefix layer timestamp z x row) in
  (is_Some (fs w !! p) →
     head_tile_with_timestamp R layer timestamp z x y w
     = (Returns (Response 200 ""),
        World (fs w) (clock w)
          (trace w ++ [EvExists p; EvLog INFO ("Tile found locally at " +:+ path_str p)]))) ∧
  (fs w !! p = None → net_fault R key = false →
     head_tile_with_timestamp R layer timestamp z x y w
     = (Returns (Response (if bool_decide (is_Some (bucket R !! key)) then 200 else 404) ""),
        World (fs w) (clock w) (trace w ++ [EvExists p; EvRemoteExists key]))) ∧
  (fs w !! p = None → net_fault R key = true →
     head_tile_with_timestamp R layer timestamp z x y w
     = (Returns (Response 404 ""),
        World (fs w) (clock w)
          (trace w ++ [EvExists p; EvRemoteExists key;
                       EvLog WARNING ("HEAD failed for "
                                        +:+ key_of R prefix layer timestamp z x row)]))).
Proof.
  intros Hl Hs p key.
  assert (Hne : p ≠ []) by apply local_path_of_nonempty.
  assert (Hex : exists_in (fs w) p = bool_decide (is_Some (fs w !! p)))
    by (by apply exists_in_nonempty).
  unfold head_tile_with_timestamp. rewrite Hl.
  repeat split; intros Hp; [|intros Hf ..]; mrun; rewrite Hs; fold p key; mrun;
    rewrite Hex.
  - rewrite bool_decide_true by done. by mrun.
  - rewrite bool_decide_false by (rewrite Hp; by intros [? ?]).
    rewrite Hf. by mrun.
  - rewrite bool_decide_false by (rewrite Hp; by intros [? ?]).
    rewrite Hf. by mrun.
Qed.

Lemma head_exists_witness :
  fst (head_tile_with_timestamp full_runtime "SkyCover_Tiles" "2025062818" 3 2 5 warm_world)
  = Returns (Response 200 "") ∧
  fst (head_tile_with_timestamp blank_only_runtime "SkyCover_Tiles" "2025062818" 3 2 5
         (startup_world 100))
  = Returns (Response 404 "").
Proof.
  split.
  - destruct (head_exists full_runtime "SkyCover_Tiles" "data-layer-tiles/SkyCover_Tiles"
                "2025062818" 3 2 5 (PyInt 2) warm_world eq_refl eq_refl) as [H _].
    rewrite H; [reflexivity | vm_compute; eexists; reflexivity].
  - destruct (head_exists blank_only_runtime "SkyCover_Tiles"
                "data-layer-tiles/SkyCover_Tiles" "2025062818" 3 2 5 (PyInt 2)
                (startup_world 100) eq_refl eq_refl) as (_ & H & _).
    rewrite H; [vm_compute; reflexivity | vm_compute; reflexivity | reflexivity].
Defined.

(** ** Invariants of computations *)

Section Respects.

Variable rel : world → world → Prop.
Hypothesis rel_refl : ∀ w, rel w w.
Hypothesis rel_trans : ∀ w1 w2 w3, rel w1 w2 → rel w2 w3 → rel w1 w3.

Lemma respects_ret {A} (a : A) : respects rel (ret a).
Proof. intros w. apply rel_refl. Qed.

Lemma respects_raise {A} e : respects rel (@raise A e).
Proof. intros w. apply rel_refl. Qed.

Lemma respects_lift {A} (o : outcome A) : respects rel (lift o).
Proof. intros w. apply rel_refl. Qed.

Lemma respects_get_fs : respects rel get_fs.
Proof. intros w. apply rel_refl. Qed.

Lemma respects_time_time : respects rel time_time.
Proof. intros w. apply rel_refl. Qed.

Lemma respects_await_object {A B} (obj : A) : respects rel (@await_object A B obj).
Proof. intros w. apply rel_refl. Qed.

Lemma respects_bind {A B} (m : M A) (k : A → M B) :
  respects rel m → (∀ a, respects rel (k a)) → respects rel (bind m k).
Proof.
  intros Hm Hk w. unfold bind. specialize (Hm w).
  destruct (m w) as [[a|e] w1]; simpl in *; [|done].
  eapply rel_trans; [exact Hm | apply Hk].
Qed.

Lemma respects_try_except {A} (m : M A) (h : pyexn → M A) :
  respects rel m → (∀ e, respects rel (h e)) → respects rel (try_except m h).
Proof.
  intros Hm Hh w. unfold try_except. specialize (Hm w).
  destruct (m w) as [[a|e] w1]; simpl in *; [done|].
  eapply rel_trans; [exact Hm | apply Hh].
Qed.

End Respects.

Lemma grows_refl w : grows w w.
Proof. by repeat split. Qed.

Lemma grows_trans w1 w2 w3 : grows w1 w2 → grows w2 w3 → grows w1 w3.
Proof.
  intros (Hd1 & Hc1 & Ht1) (Hd2 & Hc2 & Ht2). repeat split.
  - intros q Hq. by apply Hd2, Hd1.
  - congruence.
  - by etrans.
Qed.

Lemma observed_refl w : observed w w.
Proof. repeat split. exists []. by rewrite app_nil_r. Qed.

Lemma observed_trans w1 w2 w3 : observed w1 w2 → observed w2 w3 → observed w1 w3.
Proof.
  intros (Hf1 & Hc1 & evs1 & Ht1 & He1) (Hf2 & Hc2 & evs2 & Ht2 & He2).
  repeat split; [congruence..|].
  exists (evs1 ++ evs2). split.
  - by rewrite Ht2, Ht1, app_assoc.
  - by rewrite forallb_app, He1, He2.
Qed.

Lemma grows_emit e : respects grows (emit e).
Proof. intros w. repeat split; simpl; [done|]. by apply prefix_app_r. Qed.

Lemma observed_emit e : is_local_write e = false → respects observed (emit e).
Proof.
  intros He w. repeat split. exists [e]. split; [done|]. simpl. by rewrite He.
Qed.

(** Creating directories keeps the directories there are, and on success
    every component of the path is a directory. *)
Lemma mkdir_fold_raises t p l e :
  List.fold_left (mkdir_step t p) l (Raises e) = Raises e.
Proof. induction l as [|q l IH]; simpl; done. Qed.

Lemma mkdir_fold_spec t p l f f' :
  List.fold_left (mkdir_step t p) l (Returns f) = Returns f' →
  (∀ q, is_dir (f !! q) = true → is_dir (f' !! q) = true) ∧
  (∀ q, q ∈ l → is_dir (f' !! q) = true) ∧
  (∀ q, q ∉ l → f' !! q = f !! q) ∧
  (∀ q, is_Some (f !! q) → f' !! q = f !! q).
Proof.
  revert f. induction l as [|q0 l IH]; intros f; simpl.
  - intros [= <-]. repeat split; try done. intros q Hq. by apply elem_of_nil in Hq.
  - destruct (f !! q0) as [[t0|d0 t0]|] eqn:Hq0; simpl.
    + intros Hfold. destruct (IH _ Hfold) as (Hd & Hl & Hn & Hs).
      repeat split; try done.
      * intros q Hq. apply elem_of_cons in Hq as [->|Hq]; [|by apply Hl].
        apply Hd. by rewrite Hq0.
      * intros q Hq. apply Hn. intros Hin. apply Hq. by right.
    + by rewrite mkdir_fold_raises.
    + intros Hfold. destruct (IH _ Hfold) as (Hd & Hl & Hn & Hs).
      repeat split.
      * intros q Hq. apply Hd. destruct (decide (q = q0)) as [->|Hne].
        -- by rewrite lookup_insert_eq.
        -- by rewrite lookup_insert_ne.
      * intros q Hq. apply elem_of_cons in Hq as [->|Hq]; [|by apply Hl].
        apply Hd. by rewrite lookup_insert_eq.
      * intros q Hq. rewrite Hn by (intros Hin; apply Hq; by right).
        apply lookup_insert_ne. intros ->. apply Hq. by left.
      * intros q Hq. rewrite Hs.
        -- apply lookup_insert_ne. intros ->. rewrite Hq0 in Hq. by destruct Hq.
        -- destruct (decide (q = q0)) as [->|Hne];
             [by rewrite lookup_insert_eq | by rewrite lookup_insert_ne].
Qed.

Lemma mkdir_p_spec t p f f' :
  mkdir_p t p f = Returns f' →
  (∀ q, is_dir (f !! q) = true → is_dir (f' !! q) = true) ∧
  (∀ q, q ∈ prefixes p → is_dir (f' !! q) = true) ∧
  (∀ q, q ∉ prefixes p → f' !! q = f !! q) ∧
  (∀ q, is_Some (f !! q) → f' !! q = f !! q).
Proof. apply mkdir_fold_spec. Qed.

(** Where every component is a directory already, nothing changes. *)
Lemma mkdir_p_existing t p f :
  (∀ q, q ∈ prefixes p → is_dir (f !! q) = true) → mkdir_p t p f = Returns f.
Proof.
  unfold mkdir_p. induction (prefixes p) as [|q0 l IH]; intros H; simpl; [done|].
  assert (Hq0 : is_dir (f !! q0) = true) by (apply H; by left).
  destruct (f !! q0) as [[t0|d0 t0]|]; simpl in *; try done.
  apply IH. intros q Hq. apply H. by right.
Qed.

Lemma grows_mkdir_parents p : respects grows (mkdir_parents p).
Proof.
  intros w. unfold mkdir_parents, bind, emit.
  destruct (mkdir_p _ _ _) as [f'|e] eqn:Hmk; simpl.
  - apply mkdir_p_spec in Hmk as (Hd & _). repeat split; simpl; [done|].
    by apply prefix_app_r.
  - repeat split; simpl; [done|]. by apply prefix_app_r.
Qed.

Lemma grows_path_exists p : respects grows (path_exists p).
Proof.
  intros w. unfold path_exists. mrun. repeat split; simpl; [done|].
  by apply prefix_app_r.
Qed.

Lemma observed_path_exists p : respects observed (path_exists p).
Proof.
  intros w. unfold path_exists. mrun. repeat split. by exists [EvExists p].
Qed.

Lemma observed_log level msg : respects observed (log level msg).
Proof. by apply observed_emit. Qed.

Lemma grows_log level msg : respects grows (log level msg).
Proof. apply grows_emit. Qed.

Lemma grows_read_file R p : respects grows (read_file R p).
Proof.
  intros w. unfold read_file. mrun.
  destruct (io_fault R OpRead p); [apply grows_refl|].
  destruct (fs w !! p) as [[t|d t]|]; apply grows_refl.
Qed.

Lemma grows_write_file R p data : respects grows (write_file R p data).
Proof.
  intros w. unfold write_file.
  destruct (io_fault R OpWrite p); [apply grows_refl|].
  destruct (negb (parent_ready (fs w) p)); [apply grows_refl|].
  destruct (is_dir (fs w !! p)) eqn:Hd; [apply grows_refl|].
  repeat split; simpl; [|done].
  intros q Hq. destruct (decide (q = p)) as [->|Hne].
  - by rewrite Hq in Hd.
  - by rewrite lookup_insert_ne.
Qed.

Ltac grows_step :=
  lazymatch goal with
  | |- respects _ (bind _ _) => apply (respects_bind grows grows_trans); [| intros ?]
  | |- respects _ (try_except _ _) =>
      apply (respects_try_except grows grows_trans); [| intros ?]
  | |- respects _ (ret _) => apply (respects_ret grows grows_refl)
  | |- respects _ (raise _) => apply (respects_raise grows grows_refl)
  | |- respects _ (lift _) => apply (respects_lift grows grows_refl)
  | |- respects _ get_fs => apply (respects_get_fs grows grows_refl)
  | |- respects _ (await_object _) => apply (respects_await_object grows grows_refl)
  | |- respects _ (emit _) => apply grows_emit
  | |- respects _ (log _ _) => apply grows_log
  | |- respects _ (mkdir_parents _) => apply grows_mkdir_parents
  | |- respects _ (path_exists _) => apply grows_path_exists
  | |- respects _ (read_file _ _) => apply grows_read_file
  | |- respects _ (write_file _ _ _) => apply grows_write_file
  end.

Lemma grows_read_bytes R p : respects grows (read_bytes R p).
Proof. unfold read_bytes. repeat grows_step. Qed.

Lemma grows_write_bytes R p data : respects grows (write_bytes R p data).
Proof. unfold write_bytes. repeat grows_step. Qed.

Lemma grows_open_rb R p : respects grows (open_rb R p).
Proof. unfold open_rb. repeat grows_step. Qed.

Lemma grows_fs_get R rpath lpath : respects grows (fs_get R rpath lpath).
Proof.
  unfold fs_get. grows_step; [grows_step|].
  destruct (net_fault R rpath); [grows_step|].
  destruct (bucket R !! rpath); grows_step.
Qed.

Lemma grows_serve_blank_tile R cache_path : respects grows (serve_blank_tile R cache_path).
Proof.
  unfold serve_blank_tile.
  grows_step; [grows_step|].
  grows_step.
  - destruct a; [grows_step|].
    grows_step; repeat first [grows_step | apply grows_fs_get].
  - destruct a0; [grows_step|].
    repeat first [grows_step | apply grows_read_bytes | apply grows_write_bytes
                 | apply grows_open_rb].
Qed.

Lemma grows_get_tile R layer timestamp z x y :
  respects grows (get_tile_with_timestamp R layer timestamp z x y).
Proof.
  unfold get_tile_with_timestamp.
  destruct (LAYER_PATHS !! layer); [|repeat grows_step].
  grows_step; [grows_step|].
  grows_step; [grows_step|].
  grows_step; [grows_step|].
  destruct a1.
  - repeat first [grows_step | apply grows_open_rb].
  - repeat first [grows_step | apply grows_open_rb | apply grows_fs_get
                 | apply grows_serve_blank_tile].
Qed.

Lemma observed_fs_exists R rpath : respects observed (fs_exists R rpath).
Proof.
  unfold fs_exists.
  apply respects_bind; [apply observed_trans | |intros _].
  - by apply observed_emit.
  - destruct (net_fault R rpath); intros w; apply observed_refl.
Qed.

(** The HEAD handler only observes the world. *)
Lemma observed_head_tile R layer timestamp z x y :
  respects observed (head_tile_with_timestamp R layer timestamp z x y).
Proof.
  pose proof observed_refl as Hr. pose proof observed_trans as Ht.
  unfold head_tile_with_timestamp.
  destruct (LAYER_PATHS !! layer).
  - apply respects_bind; [done| |intros row]; [by apply respects_lift|].
    apply respects_bind; [done| |intros present]; [apply observed_path_exists|].
    destruct present.
    + apply respects_bind; [done| |intros _];
        [apply observed_log | by apply respects_ret].
    + apply respects_try_except; [done| |intros e].
      * apply respects_bind; [done| |intros found];
          [apply observed_fs_exists | by apply respects_ret].
      * apply respects_bind; [done| |intros _];
          [apply observed_log | by apply respects_ret].
  - apply respects_bind; [done| |intros _];
      [apply observed_log | by apply respects_ret].
Qed.

(** ** The GET handler and the parent directories *)

Lemma bind_returns {A B} (m : M A) (k : A → M B) w a w1 :
  m w = (Returns a, w1) → bind m k w = k a w1.
Proof. intros H. unfold bind. by rewrite H. Qed.

Lemma bind_raises {A B} (m : M A) (k : A → M B) w e w1 :
  m w = (Raises e, w1) → bind m k w = (Raises e, w1).
Proof. intros H. unfold bind. by rewrite H. Qed.

Lemma mkdir_parents_returns p w f1 :
  mkdir_p (clock w) p (fs w) = Returns f1 →
  mkdir_parents p w = (Returns tt, World f1 (clock w) (trace w ++ [EvMkdir p])).
Proof. intros H. unfold mkdir_parents. mrun. by rewrite H. Qed.

Lemma mkdir_parents_raises p w e :
  mkdir_p (clock w) p (fs w) = Raises e →
  mkdir_parents p w = (Raises e, World (fs w) (clock w) (trace w ++ [EvMkdir p])).
Proof. intros H. unfold mkdir_parents. mrun. by rewrite H. Qed.

Lemma path_exists_run p w :
  path_exists p w
  = (Returns (exists_in (fs w) p), World (fs w) (clock w) (trace w ++ [EvExists p])).
Proof. done. Qed.

(** [mkdir -p] succeeds when no component of the path is a regular file. *)
Lemma mkdir_fold_succeeds t p l f :
  (∀ q, q ∈ l → is_file (f !! q) = false) →
  ∃ f', List.fold_left (mkdir_step t p) l (Returns f) = Returns f'.
Proof.
  revert f. induction l as [|q0 l IH]; intros f H; simpl; [by eexists|].
  assert (Hq0 : is_file (f !! q0) = false) by (apply H; by left).
  destruct (f !! q0) as [[t0|d0 t0]|] eqn:E; simpl in *; try done.
  - apply IH. intros q Hq. apply H. by right.
  - apply IH. intros q Hq. destruct (decide (q = q0)) as [->|Hne].
    + by rewrite lookup_insert_eq.
    + rewrite lookup_insert_ne by done. apply H. by right.
Qed.

Lemma mkdir_p_succeeds t p f :
  (∀ q, q ∈ prefixes p → is_file (f !! q) = false) →
  ∃ f', mkdir_p t p f = Returns f'.
Proof. apply mkdir_fold_succeeds. Qed.

(** The handler up to its existence check. *)
Lemma get_tile_after_mkdir R layer prefix timestamp z x y row w f1 :
  LAYER_PATHS !! layer = Some prefix →
  slippy_y_from_tms z y = Returns row →
  let lp := local_path_of R layer timestamp z x row in
  mkdir_p (clock w) (parent lp) (fs w) = Returns f1 →
  ∃ m : M response,
    respects grows m ∧
    get_tile_with_timestamp R layer timestamp z x y w
    = m (World f1 (clock w) (trace w ++ [EvMkdir (parent lp); EvExists lp])).
Proof.
  intros Hl Hs lp Hmk. unfold get_tile_with_timestamp. rewrite Hl.
  rewrite (bind_returns (lift _) _ w row w) by (unfold lift; by rewrite Hs).
  fold lp.
  rewrite (bind_returns (mkdir_parents _) _ w tt _ (mkdir_parents_returns _ _ _ Hmk)).
  rewrite (bind_returns (path_exists _) _ _ _ _ (path_exists_run _ _)).
  cbn [fs clock trace]. rewrite <- app_assoc. cbn [app].
  eexists. split; [|reflexivity].
  destruct (exists_in f1 lp);
    repeat first [ grows_step | apply grows_open_rb | apply grows_fs_get
                 | apply grows_serve_blank_tile ].
Qed.

Lemma read_file_file R p w data t :
  fs w !! p = Some (File data t) → io_fault R OpRead p = false →
  read_file R p w = (Returns data, w).
Proof. intros Hp Hf. unfold read_file. mrun. by rewrite Hf, Hp. Qed.

Lemma open_rb_file R p w data t :
  fs w !! p = Some (File data t) → io_fault R OpRead p = false →
  open_rb R p w = (Returns data, World (fs w) (clock w) (trace w ++ [EvOpen p])).
Proof.
  intros Hp Hf. unfold open_rb.
  rewrite (bind_returns (emit _) _ w tt (World (fs w) (clock w) (trace w ++ [EvOpen p])))
    by done.
  by rewrite (read_file_file R p _ data t).
Qed.

(** A cache hit: the file is served from the disk, without a remote call
    and, where its directories exist, without a change to the file
    system. *)
Lemma get_tile_cache_hit R layer prefix timestamp z x y row w data t :
  LAYER_PATHS !! layer = Some prefix →
  slippy_y_from_tms z y = Returns row →
  let lp := local_path_of R layer timestamp z x row in
  (∀ q, q ∈ prefixes (parent lp) → is_dir (fs w !! q) = true) →
  fs w !! lp = Some (File data t) →
  io_fault R OpRead lp = false →
  get_tile_with_timestamp R layer timestamp z x y w
  = (Returns (StreamingResponse data tile_headers None),
     World (fs w) (clock w) (trace w ++ [EvMkdir (parent lp); EvExists lp; EvOpen lp])).
Proof.
  intros Hl Hs lp Hdirs Hlp Hf. unfold get_tile_with_timestamp. rewrite Hl.
  rewrite (bind_returns (lift _) _ w row w) by (unfold lift; by rewrite Hs).
  assert (Hne : lp ≠ []) by apply local_path_of_nonempty.
  fold lp. clearbody lp.
  rewrite (bind_returns (mkdir_parents _) _ w tt _
             (mkdir_parents_returns _ _ _ (mkdir_p_existing _ _ _ Hdirs))).
  rewrite (bind_returns (path_exists _) _ _ _ _ (path_exists_run _ _)).
  cbn [fs clock trace]. rewrite <- app_assoc. cbn [app].
  rewrite exists_in_nonempty by done.
  rewrite bool_decide_true by (by eexists).
  erewrite bind_returns by (by eapply open_rb_file).
  mrun. done.
Qed.

(** C9, as amended: for a GET request with a registered layer whose row is
    computed, the first effect of the handler is the [mkdir -p] of the
    parent of the cache path; where no component of that path is a
    regular file the existence check follows it and, whatever the outcome
    of the request, every component is a directory afterwards.  Only
    missing directories are created: on a cache hit whose directories
    exist the file system stays as it is.  The HEAD handler leaves the
    file system as it is and emits no writing event. *)
Theorem get_creates_parent_dirs R layer prefix timestamp z x y row w :
  LAYER_PATHS !! layer = Some prefix →
  slippy_y_from_tms z y = Returns row →
  let lp := local_path_of R layer timestamp z x row in
  let w' := snd (get_tile_with_timestamp R layer timestamp z x y w) in
  (∃ rest, trace w' = trace w ++ EvMkdir (parent lp) :: rest) ∧
  ((∀ q, q ∈ prefixes (parent lp) → is_file (fs w !! q) = false) →
     (∃ rest, trace w' = trace w ++ EvMkdir (parent lp) :: EvExists lp :: rest) ∧
     (∀ q, q ∈ prefixes (parent lp) → is_dir (fs w' !! q) = true)) ∧
  ((∀ q, q ∈ prefixes (parent lp) → is_dir (fs w !! q) = true) →
     is_file (fs w !! lp) = true → fs w' = fs w) ∧
  observed w (snd (head_tile_with_timestamp R layer timestamp z x y w)).
Proof.
  intros Hl Hs lp w'.
  assert (Hok : ∀ f1, mkdir_p (clock w) (parent lp) (fs w) = Returns f1 →
            (∃ rest, trace w' = trace w ++ EvMkdir (parent lp) :: EvExists lp :: rest) ∧
            (∀ q, q ∈ prefixes (parent lp) → is_dir (fs w' !! q) = true)).
  { intros f1 Hmk.
    destruct (get_tile_after_mkdir R layer prefix timestamp z x y row w f1 Hl Hs Hmk)
      as (m & Hm & Hrun).
    fold lp in Hrun. unfold w'. rewrite Hrun.
    destruct (Hm (World f1 (clock w) (trace w ++ [EvMkdir (parent lp); EvExists lp])))
      as (Hd & _ & rest & Ht).
    cbn [fs clock trace] in Hd, Ht. split.
    - exists rest. by rewrite Ht, <- app_assoc.
    - intros q Hq. apply Hd. by apply (mkdir_p_spec _ _ _ _ Hmk). }
  repeat split.
  - destruct (mkdir_p (clock w) (parent lp) (fs w)) as [f1|e] eqn:Hmk.
    + destruct (Hok f1 eq_refl) as [[rest Ht] _]. by eexists.
    + unfold w', get_tile_with_timestamp. rewrite Hl.
      rewrite (bind_returns (lift _) _ w row w) by (unfold lift; by rewrite Hs).
      fold lp.
      rewrite (bind_raises (mkdir_parents _) _ w e _ (mkdir_parents_raises _ _ _ Hmk)).
      by exists [].
  - destruct (mkdir_p_succeeds (clock w) (parent lp) (fs w) H) as [f1 Hmk].
    by destruct (Hok f1 Hmk).
  - destruct (mkdir_p_succeeds (clock w) (parent lp) (fs w) H) as [f1 Hmk].
    by destruct (Hok f1 Hmk).
  - intros Hdirs Hfile. unfold w'.
    destruct (fs w !! lp) as [[t|data t]|] eqn:Hlp; try done.
    destruct (io_fault R OpRead lp) eqn:Hf.
    + unfold get_tile_with_timestamp. rewrite Hl.
      rewrite (bind_returns (lift _) _ w row w) by (unfold lift; by rewrite Hs).
      assert (Hne : lp ≠ []) by apply local_path_of_nonempty.
      fold lp. clearbody lp.
      rewrite (bind_returns (mkdir_parents _) _ w tt _
                 (mkdir_parents_returns _ _ _ (mkdir_p_existing _ _ _ Hdirs))).
      rewrite (bind_returns (path_exists _) _ _ _ _ (path_exists_run _ _)).
      cbn [fs clock trace].
      rewrite exists_in_nonempty by done.
      rewrite bool_decide_true by (by eexists).
      unfold open_rb, read_file. mrun. by rewrite Hf.
    + by rewrite (get_tile_cache_hit R layer prefix timestamp z x y row w data t).
  - apply observed_head_tile.
  - apply observed_head_tile.
  - apply observed_head_tile.
Qed.

(** C9, counterexample: a GET of a tile that is in the cache, with its
    directories, serves the tile and leaves the file system as it was, so
    a pure cache hit does not change the file system. *)
Lemma cache_hit_leaves_file_system_unchanged :
  fst (get_tile_with_timestamp full_runtime "SkyCover_Tiles" "2025062818" 3 2 5 warm_world)
  = Returns (StreamingResponse sample_tile tile_headers None) ∧
  fs (snd (get_tile_with_timestamp full_runtime "SkyCover_Tiles" "2025062818" 3 2 5
             warm_world))
  = fs warm_world.
Proof. split; vm_compute; reflexivity. Qed.

Lemma get_creates_parent_dirs_witness :
  ∃ rest,
    trace (snd (get_tile_with_timestamp blank_only_runtime "SkyCover_Tiles" "2025062818"
                  3 2 5 (startup_world 100)))
    = trace (startup_world 100)
        ++ EvMkdir (parent (local_path_of blank_only_runtime "SkyCover_Tiles" "2025062818"
                              3 2 (PyInt 2)))
        :: rest.
Proof.
  destruct (get_creates_parent_dirs blank_only_runtime "SkyCover_Tiles"
              "data-layer-tiles/SkyCover_Tiles" "2025062818" 3 2 5 (PyInt 2)
              (startup_world 100)) as [H _]; [reflexivity | reflexivity | exact H].
Defined.

(** ** The blank tile fallback *)

Lemma prefixes_length p q : q ∈ prefixes p → (length q ≤ length p)%nat.
Proof.
  revert q. induction p as [|c p IH]; intros q; simpl.
  - intros H. by apply elem_of_nil in H.
  - intros H. apply elem_of_cons in H as [->|H]; [simpl; lia|].
    apply list_elem_of_In, in_map_iff in H as (q' & <- & H).
    apply list_elem_of_In, IH in H. simpl. lia.
Qed.

Lemma removelast_length {A} (l : list A) : l ≠ [] → (length (removelast l) < length l)%nat.
Proof.
  induction l as [|a l IH]; [done|]. intros _.
  destruct l as [|b l]; [simpl; lia|].
  change (removelast (a :: b :: l)) with (a :: removelast (b :: l)).
  simpl length. apply -> Nat.succ_lt_mono. by apply IH.
Qed.

Lemma not_prefix_of_parent p : p ≠ [] → p ∉ prefixes (parent p).
Proof.
  intros Hp Hin. apply prefixes_length in Hin. unfold parent in Hin.
  pose proof (removelast_length p Hp). lia.
Qed.

(** C1: a GET of a tile of a registered layer that is not in the cache
    and whose download fails, because the remote call fails or the object
    is absent, never returns a response, so it does not return the bytes of
    the blank tile: the handler ends in an exception, whatever
    [serve_blank_tile] has done before. *)
Theorem fallback_never_returns_placeholder R layer prefix timestamp z x y row w :
  LAYER_PATHS !! layer = Some prefix →
  slippy_y_from_tms z y = Returns row →
  let lp := local_path_of R layer timestamp z x row in
  let key := s3key (key_of R prefix layer timestamp z x row) in
  fs w !! lp = None →
  net_fault R key = true ∨ bucket R !! key = None →
  ∃ e, fst (get_tile_with_timestamp R layer timestamp z x y w) = Raises e.
Proof.
  intros Hl Hs lp key Hlp Hfetch.
  assert (Hne : lp ≠ []) by apply local_path_of_nonempty.
  unfold get_tile_with_timestamp. rewrite Hl.
  rewrite (bind_returns (lift _) _ w row w) by (unfold lift; by rewrite Hs).
  fold lp key. clearbody lp key.
  destruct (mkdir_p (clock w) (parent lp) (fs w)) as [f1|e] eqn:Hmk.
  - rewrite (bind_returns (mkdir_parents _) _ w tt _ (mkdir_parents_returns _ _ _ Hmk)).
    rewrite (bind_returns (path_exists _) _ _ _ _ (path_exists_run _ _)).
    cbn [fs clock trace].
    assert (Hf1 : f1 !! lp = None).
    { apply mkdir_p_spec in Hmk as (_ & _ & Hn & _).
      rewrite Hn; [done | by apply not_prefix_of_parent]. }
    rewrite exists_in_nonempty by done.
    rewrite bool_decide_false by (apply eq_None_not_Some; exact Hf1).
    unfold try_except, bind at 1.
    assert (Hget : ∃ e0 w0, fs_get R key lp
              (World f1 (clock w) ((trace w ++ [EvMkdir (parent lp)]) ++ [EvExists lp]))
            = (Raises e0, w0)).
    { unfold fs_get. mrun. destruct (net_fault R key); [by eexists _, _|].
      destruct Hfetch as [Hnf | ->]; [done | by eexists _, _]. }
    destruct Hget as (e0 & w0 & ->).
    unfold bind at 1, log at 1, emit at 1.
    unfold bind at 1.
    destruct (serve_blank_tile R lp _) as [[r|e] w2]; by eexists.
  - rewrite (bind_raises (mkdir_parents _) _ w e _ (mkdir_parents_raises _ _ _ Hmk)).
    by eexists.
Qed.

Lemma fallback_never_returns_placeholder_witness :
  ∃ e, fst (get_tile_with_timestamp blank_only_runtime "SkyCover_Tiles" "2025062818"
              3 2 5 (startup_world 100)) = Raises e.
Proof.
  apply (fallback_never_returns_placeholder blank_only_runtime "SkyCover_Tiles"
           "data-layer-tiles/SkyCover_Tiles" "2025062818" 3 2 5 (PyInt 2)
           (startup_world 100));
    [reflexivity | reflexivity | vm_compute; reflexivity | right; vm_compute; reflexivity].
Defined.

(** The run of the fallback on the sample request.  The tile is absent
    from the bucket: the first GET stores the blank tile at the cache path
    of the tile and then ends in the [TypeError] of its [await]; the second
    GET finds the stored blank tile in the cache and streams it, without a
    remote call. *)
Example first_miss_raises_then_cache_hit :
  let lp := local_path_of blank_only_runtime "SkyCover_Tiles" "2025062818" 3 2 (PyInt 2) in
  let second :=
    get_tile_with_timestamp blank_only_runtime "SkyCover_Tiles" "2025062818" 3 2 5
      missed_world in
  fst (get_tile_with_timestamp blank_only_runtime "SkyCover_Tiles" "2025062818" 3 2 5
         (startup_world 100)) = Raises TypeError ∧
  fs missed_world !! lp = Some (File sample_blank 100) ∧
  fst second = Returns (StreamingResponse sample_blank tile_headers None) ∧
  forallb (λ e, negb (is_remote e))
    (drop (length (trace missed_world)) (trace (snd second))) = true.
Proof. repeat split; vm_compute; reflexivity. Qed.

(** ** The cache clean-up *)

(** One tile of the sweep.  The body of the loop returns normally and
    touches no other path; the tile is removed when it is a file older
    than the threshold and neither call fails, and stays as it is
    otherwise, with an error in the log when a call has failed. *)
Lemma cleanup_tile_spec R now deleted tile w :
  ∃ deleted' w',
    cleanup_tile R now deleted tile w = (Returns deleted', w') ∧
    clock w' = clock w ∧
    trace w `prefix_of` trace w' ∧
    (∀ q, q ≠ tile → fs w' !! q = fs w !! q) ∧
    (∀ data t, fs w !! tile = Some (File data t) → now - t > CACHE_EXPIRY_SECONDS →
       io_fault R OpStat tile = false → io_fault R OpUnlink tile = false →
       fs w' !! tile = None) ∧
    (∀ n, fs w !! tile = Some n → now - node_mtime n ≤ CACHE_EXPIRY_SECONDS →
       fs w' !! tile = Some n) ∧
    (∀ n, fs w !! tile = Some n →
       io_fault R OpStat tile = true ∨
       (now - node_mtime n > CACHE_EXPIRY_SECONDS ∧
        (io_fault R OpUnlink tile = true ∨ is_dir (Some n) = true)) →
       fs w' !! tile = Some n ∧
       EvLog ERROR ("Failed to delete " +:+ path_str tile) ∈ trace w').
Proof.
  unfold cleanup_tile, stat_mtime, unlink. mrun.
  destruct (io_fault R OpStat tile) eqn:Hst; mrun.
  { eexists _, _. split; [done|]. cbn [fs clock trace].
    split; [done|]. split; [by eexists|]. split; [done|].
    split; [done|]. split; [done|].
    intros n Hn _. split; [done | set_solver]. }
  destruct (fs w !! tile) as [n|] eqn:Hn; mrun.
  2:{ eexists _, _. split; [done|]. cbn [fs clock trace].
      split; [done|]. split; [by eexists|]. by rewrite Hn. }
  destruct (Z.gtb_spec (now - node_mtime n) CACHE_EXPIRY_SECONDS) as [Hold|Hyoung]; mrun.
  2:{ eexists _, _. split; [done|]. cbn [fs clock trace].
      split; [done|]. split; [by eexists|]. split; [done|]. rewrite Hn.
      split; [|split].
      - intros data t [= ->] Ht. simpl in Hyoung. lia.
      - done.
      - intros n' [= <-] [?|[? _]]; [done|lia]. }
  rewrite Hn.
  destruct (io_fault R OpUnlink tile) eqn:Hun; mrun.
  { eexists _, _. split; [done|]. cbn [fs clock trace].
    split; [done|]. split; [by eexists|]. split; [done|]. rewrite Hn.
    split; [done|]. split; [done|].
    intros n' [= <-] _. split; [done | set_solver]. }
  destruct n as [t|data t]; mrun.
  - eexists _, _. split; [done|]. cbn [fs clock trace].
    split; [done|]. split; [by eexists|]. split; [done|]. rewrite Hn.
    split; [done|]. split; [done|].
    intros n' [= <-] _. split; [done | set_solver].
  - eexists _, _. split; [done|]. cbn [fs clock trace].
    split; [done|]. split; [by eexists|].
    split; [intros q Hq; by apply lookup_delete_ne|].
    split; [intros; apply lookup_delete_eq|].
    split.
    + intros n' [= <-] Hy. simpl in *. lia.
    + intros n' [= <-] [?|[_ [?|?]]]; done.
Qed.

(** The loop over the tiles that [rglob] has listed: the properties of
    one tile hold for each tile of the list, since no path is listed
    twice and a tile touches no other path. *)
Lemma cleanup_tiles_spec R now tiles :
  NoDup tiles → ∀ deleted w,
  ∃ deleted' w',
    cleanup_tiles R now deleted tiles w = (Returns deleted', w') ∧
    clock w' = clock w ∧
    trace w `prefix_of` trace w' ∧
    (∀ q, q ∉ tiles → fs w' !! q = fs w !! q) ∧
    (∀ p data t, p ∈ tiles → fs w !! p = Some (File data t) →
       now - t > CACHE_EXPIRY_SECONDS →
       io_fault R OpStat p = false → io_fault R OpUnlink p = false →
       fs w' !! p = None) ∧
    (∀ p n, fs w !! p = Some n → now - node_mtime n ≤ CACHE_EXPIRY_SECONDS →
       fs w' !! p = Some n) ∧
    (∀ p n, p ∈ tiles → fs w !! p = Some n →
       io_fault R OpStat p = true ∨
       (now - node_mtime n > CACHE_EXPIRY_SECONDS ∧
        (io_fault R OpUnlink p = true ∨ is_dir (Some n) = true)) →
       fs w' !! p = Some n ∧
       EvLog ERROR ("Failed to delete " +:+ path_str p) ∈ trace w').
Proof.
  induction tiles as [|tile rest IH]; intros Hnd deleted w.
  - exists deleted, w. split; [done|]. split; [done|]. split; [done|].
    split; [done|]. split; [|split]; [|done|].
    + intros p data t Hp. by apply elem_of_nil in Hp.
    + intros p n Hp. by apply elem_of_nil in Hp.
  - apply NoDup_cons in Hnd as [Hnotin Hnd].
    destruct (cleanup_tile_spec R now deleted tile w)
      as (d1 & w1 & Hrun1 & Hc1 & Ht1 & Hfr1 & Hdel1 & Hkeep1 & Hfail1).
    destruct (IH Hnd d1 w1)
      as (d2 & w2 & Hrun2 & Hc2 & Ht2 & Hfr2 & Hdel2 & Hkeep2 & Hfail2).
    exists d2, w2.
    split; [simpl; by rewrite (bind_returns _ _ _ _ _ Hrun1)|].
    split; [congruence|]. split; [by etrans|].
    split; [|split; [|split]].
    + intros q Hq. apply not_elem_of_cons in Hq as [Hq1 Hq2].
      by rewrite Hfr2, Hfr1.
    + intros p data t Hp Hf Hold Hst Hun.
      apply elem_of_cons in Hp as [->|Hp].
      * rewrite Hfr2 by done. by eapply Hdel1.
      * assert (p ≠ tile) by (by intros ->).
        eapply Hdel2; [done| |done..]. by rewrite Hfr1.
    + intros p n Hf Hyoung. apply Hkeep2; [|done].
      destruct (decide (p = tile)) as [->|Hne]; [by apply Hkeep1 | by rewrite Hfr1].
    + intros p n Hp Hf Hbad.
      apply elem_of_cons in Hp as [->|Hp].
      * destruct (Hfail1 n Hf Hbad) as [Hs Hlog].
        rewrite Hfr2 by done. split; [done|].
        destruct Ht2 as [evs ->]. apply elem_of_app. by left.
      * assert (p ≠ tile) by (by intros ->).
        apply Hfail2; [done| |done]. by rewrite Hfr1.
Qed.

(** The entries that [rglob] lists are the cached [.png] entries, each
    of them once. *)
Lemma elem_of_cached_png f p :
  p ∈ List.filter (λ p, is_below CACHE_DIR p && endswith (name p) ".png")
        (List.map fst (map_to_list f))
  ↔ is_cached_png f p = true.
Proof.
  unfold is_cached_png. rewrite list_elem_of_In, filter_In, in_map_iff.
  rewrite <- andb_assoc. split.
  - intros [([q n] & Hq & Hin) H2]. simpl in Hq. subst q.
    apply andb_true_iff. split; [|done]. apply bool_decide_eq_true.
    apply list_elem_of_In, elem_of_map_to_list in Hin. by eexists.
  - intros [H1 H2]%andb_true_iff. split; [|done].
    apply bool_decide_eq_true in H1 as [n Hn]. exists (p, n). split; [done|].
    by apply list_elem_of_In, elem_of_map_to_list.
Qed.

Lemma cached_png_NoDup (f : gmap path node) :
  NoDup (List.filter (λ p, is_below CACHE_DIR p && endswith (name p) ".png")
           (List.map fst (map_to_list f))).
Proof. apply NoDup_ListNoDup, List.NoDup_filter, NoDup_ListNoDup, NoDup_fst_map_to_list. Qed.

(** C3: one sweep of the clean-up over the cache returns normally, and
    - a cached [.png] file whose age, the time of the sweep minus its time
      of last modification, is above 12 hours is deleted, when neither its
      [stat] nor its [unlink] fails;
    - an entry whose age is at most 12 hours stays as it is;
    - a cached [.png] entry whose [stat] fails, or whose age is above 12
      hours and whose [unlink] fails, stays as it is, and the failure is in
      the log; the other entries of the sweep are treated as above;
    - no other path of the file system changes. *)
Theorem sweep_deletes_expired_entries R w :
  ∃ deleted w',
    cleanup_sweep R w = (Returns deleted, w') ∧
    (∀ p data t, is_cached_png (fs w) p = true → fs w !! p = Some (File data t) →
       clock w - t > CACHE_EXPIRY_SECONDS →
       io_fault R OpStat p = false → io_fault R OpUnlink p = false →
       fs w' !! p = None) ∧
    (∀ p n, fs w !! p = Some n → clock w - node_mtime n ≤ CACHE_EXPIRY_SECONDS →
       fs w' !! p = Some n) ∧
    (∀ p n, is_cached_png (fs w) p = true → fs w !! p = Some n →
       io_fault R OpStat p = true ∨
       (clock w - node_mtime n > CACHE_EXPIRY_SECONDS ∧
        (io_fault R OpUnlink p = true ∨ is_dir (Some n) = true)) →
       fs w' !! p = Some n ∧
       EvLog ERROR ("Failed to delete " +:+ path_str p) ∈ trace w') ∧
    (∀ p, is_cached_png (fs w) p = false → fs w' !! p = fs w !! p).
Proof.
  pose (tiles := List.filter (λ p, is_below CACHE_DIR p && endswith (name p) ".png")
                   (List.map fst (map_to_list (fs w)))).
  destruct (cleanup_tiles_spec R (clock w) tiles (cached_png_NoDup (fs w)) 0
              (World (fs w) (clock w) (trace w ++ [EvRglob CACHE_DIR])))
    as (d & w2 & Hrun & Hc & Ht & Hfr & Hdel & Hkeep & Hfail).
  cbn [fs clock trace] in *.
  exists d, (World (fs w2) (clock w2)
               (trace w2 ++ [EvLog INFO ("Cache cleanup complete. Deleted "
                                           +:+ str_of_int d +:+ " tiles.")])).
  split.
  { unfold cleanup_sweep, rglob_png. mrun. fold tiles.
    by rewrite Hrun. }
  cbn [fs clock trace].
  split; [|split; [|split]].
  - intros p data t Hp. apply Hdel. by apply elem_of_cached_png.
  - done.
  - intros p n Hp Hf Hbad.
    destruct (Hfail p n) as [Hs Hlog]; [by apply elem_of_cached_png|done..|].
    split; [done|]. apply elem_of_app. by left.
  - intros p Hp. apply Hfr. intros Hin. apply elem_of_cached_png in Hin. congruence.
Qed.

Lemma sweep_deletes_expired_entries_witness :
  fs (snd (cleanup_sweep plain_runtime aged_world)) !! old_tile = None ∧
  fs (snd (cleanup_sweep plain_runtime aged_world)) !! young_tile
  = Some (File sample_tile (100000 - 3600)).
Proof.
  destruct (sweep_deletes_expired_entries plain_runtime aged_world)
    as (d & w' & Hrun & Hdel & Hkeep & _).
  rewrite Hrun. cbn [snd]. split.
  - apply (Hdel old_tile sample_tile (100000 - 13 * 3600)); vm_compute; reflexivity.
  - apply (Hkeep young_tile); [vm_compute; reflexivity | vm_compute; discriminate].
Defined.

(** ** The row flip outside its range *)

(** C10, counterexample: at the zoom [-1] and the row [2^1024] the flip
    raises [OverflowError], and so does the GET handler, so an error is
    signalled for this out-of-range input. *)
Lemma flip_overflows_on_huge_row :
  slippy_y_from_tms (-1) (2 ^ 1024) = Raises OverflowError ∧
  fst (get_tile_with_timestamp plain_runtime "SkyCover_Tiles" "2025062818" (-1) 0 (2 ^ 1024)
         (startup_world 0))
  = Raises OverflowError.
Proof. split; vm_compute; reflexivity. Qed.

Lemma float_of_int_raises n e : float_of_int n = Raises e → e = OverflowError.
Proof.
  unfold float_of_int. destruct (binary_normalize prec emax n 0 false); congruence.
Qed.

Lemma local_path_of_neg_half R layer timestamp x :
  is_component layer = true → is_component timestamp = true →
  float_repr R neg_half = "-0.5" →
  local_path_of R layer timestamp (-1) x (PyFloat neg_half)
  = CACHE_DIR ++ [layer; timestamp; "-1"; str_of_int x; "-0.5.png"].
Proof.
  intros Hl Ht Hr. unfold local_path_of, format_num. rewrite Hr.
  rewrite (joinpath_component _ layer Hl), (joinpath_component _ timestamp Ht).
  rewrite !(joinpath_component _ (str_of_int _)) by apply is_component_str_of_int.
  rewrite (joinpath_component _ ("-0.5" +:+ ".png")) by reflexivity.
  by rewrite <- !app_assoc.
Qed.

(** C10: the flip is applied to whatever zoom and row the request
    carries.  At the zoom [-1] and the row [0] it returns the float
    [-0.5], which lies strictly between [-1] and [0], and the cache path
    and the key of the tile are built from its [repr].  At a zoom
    [z >= 0] it returns an [int] for every row, and a row outside
    [[0, 2^z)] is sent outside that range.  At a zoom [z < 0] it returns a
    float, unless [z] or the row is too large for a float: then it raises
    [OverflowError]. *)
Theorem flip_is_not_validated R layer prefix timestamp x :
  LAYER_PATHS !! layer = Some prefix → is_component timestamp = true →
  float_repr R neg_half = "-0.5" →
  (slippy_y_from_tms (-1) 0 = Returns (PyFloat neg_half) ∧
   strictly_between (-1) neg_half = true ∧
   local_path_of R layer timestamp (-1) x (PyFloat neg_half)
   = CACHE_DIR ++ [layer; timestamp; "-1"; str_of_int x; "-0.5.png"] ∧
   key_of R prefix layer timestamp (-1) x (PyFloat neg_half)
   = if String.eqb layer "LightPollution_Tiles" && String.eqb timestamp "static"
     then prefix +:+ "/-1/" +:+ str_of_int x +:+ "/-0.5.png"
     else prefix +:+ "/" +:+ timestamp +:+ "/-1/" +:+ str_of_int x +:+ "/-0.5.png") ∧
  (∀ z y, 0 ≤ z →
     ∃ row, slippy_y_from_tms z y = Returns (PyInt row) ∧
            (¬ (0 ≤ y < 2 ^ z) → ¬ (0 ≤ row < 2 ^ z))) ∧
  (∀ z y, z < 0 →
     (float_of_int z = Raises OverflowError ∨ float_of_int y = Raises OverflowError →
      slippy_y_from_tms z y = Raises OverflowError) ∧
     (∀ a b, float_of_int z = Returns a → float_of_int y = Returns b →
        ∃ f, slippy_y_from_tms z y = Returns (PyFloat f))).
Proof.
  intros Hl Ht Hr. split; [|split].
  - split; [by vm_compute|]. split; [by vm_compute|]. split.
    + apply local_path_of_neg_half; [by eapply registered_layer_component | done..].
    + unfold key_of, key_static, key_timestamped, format_num. rewrite Hr.
      by destruct (String.eqb layer "LightPollution_Tiles" && String.eqb timestamp "static").
  - intros z y Hz. exists (2 ^ z - 1 - y).
    split; [by apply slippy_nonneg_zoom | lia].
  - intros z y Hz. unfold slippy_y_from_tms, py_pow2.
    destruct (Z.leb_spec 0 z) as [?|_]; [lia|].
    assert (H1 : float_of_int 1 = Returns (SFone prec emax)) by (by vm_compute).
    split.
    + intros [Hz'|Hy]; [by rewrite Hz'|].
      destruct (float_of_int z) as [a|e] eqn:Ha; cbn [outcome_bind py_sub_int].
      * rewrite H1. cbn [outcome_bind py_sub_int]. by rewrite Hy.
      * by rewrite (float_of_int_raises z e Ha).
    + intros a b Ha Hb. rewrite Ha. cbn [outcome_bind py_sub_int].
      rewrite H1. cbn [outcome_bind py_sub_int]. rewrite Hb. cbn [outcome_bind].
      by eexists.
Qed.

Lemma flip_is_not_validated_witness :
  slippy_y_from_tms (-1) 0 = Returns (PyFloat neg_half) ∧
  local_path_of repr_runtime "SkyCover_Tiles" "2025062818" (-1) 0 (PyFloat neg_half)
  = CACHE_DIR ++ ["SkyCover_Tiles"; "2025062818"; "-1"; str_of_int 0; "-0.5.png"] ∧
  (∃ row, slippy_y_from_tms 3 8 = Returns (PyInt row) ∧
          (¬ (0 ≤ 8 < 2 ^ 3) → ¬ (0 ≤ row < 2 ^ 3))) ∧
  slippy_y_from_tms (-1) (2 ^ 1024) = Raises OverflowError.
Proof.
  destruct (flip_is_not_validated repr_runtime "SkyCover_Tiles"
              "data-layer-tiles/SkyCover_Tiles" "2025062818" 0
              eq_refl eq_refl eq_refl) as ((H1 & _ & H2 & _) & H3 & H4).
  split; [exact H1|]. split; [exact H2|]. split; [apply H3; lia|].
  apply H4; [lia|]. right. vm_compute. reflexivity.
Defined.

(** ** Distinct requests have distinct cache paths *)

Lemma to_int_nonnil n :
  Z.to_int n ≠ Decimal.Pos Decimal.Nil ∧ Z.to_int n ≠ Decimal.Neg Decimal.Nil.
Proof.
  destruct n as [|p|p]; simpl; (split; [|]); try done;
    intros [= Hx]; by apply DecimalPos.Unsigned.to_uint_nonnil in Hx.
Qed.

Lemma str_of_int_inj n m : str_of_int n = str_of_int m → n = m.
Proof.
  unfold str_of_int. intros H. apply DecimalZ.to_int_inj.
  apply (f_equal NilZero.int_of_string) in H.
  destruct (to_int_nonnil n) as [Hn1 Hn2]. destruct (to_int_nonnil m) as [Hm1 Hm2].
  rewrite !NilZero.isi in H by done. congruence.
Qed.

Lemma string_app_inv_tail s : ∀ s' t, s +:+ t = s' +:+ t → s = s'.
Proof.
  induction s as [|c s IH]; intros s' t H.
  - destruct s' as [|c' s']; [done|].
    apply (f_equal String.length) in H. simpl in H.
    rewrite !string_length_app in H. simpl in H. lia.
  - destruct s' as [|c' s'].
    + apply (f_equal String.length) in H. simpl in H.
      rewrite !string_length_app in H. simpl in H. lia.
    + simpl in H. injection H as -> H. f_equal. by eapply IH.
Qed.

(** X2: for requests with registered layers, zooms [z >= 0] and
    timestamps that are names, that is, not empty, without a slash and
    neither [.] nor [..], two requests that differ in layer, timestamp,
    zoom, column or row have different cache paths. *)
Theorem cache_path_injective R layer layer' prefix prefix' timestamp timestamp'
    z z' x x' y y' row row' :
  LAYER_PATHS !! layer = Some prefix → LAYER_PATHS !! layer' = Some prefix' →
  is_name timestamp = true → is_name timestamp' = true →
  0 ≤ z → 0 ≤ z' →
  slippy_y_from_tms z y = Returns row → slippy_y_from_tms z' y' = Returns row' →
  (layer, timestamp, z, x, y) ≠ (layer', timestamp', z', x', y') →
  local_path_of R layer timestamp z x row ≠ local_path_of R layer' timestamp' z' x' row'.
Proof.
  intros Hl Hl' Ht Ht' Hz Hz' Hs Hs' Hne Heq. apply Hne. clear Hne.
  apply andb_prop in Ht as [Ht _]. apply andb_prop in Ht' as [Ht' _].
  rewrite slippy_nonneg_zoom in Hs, Hs' by done.
  injection Hs as <-. injection Hs' as <-.
  rewrite !local_path_of_components in Heq
    by first [ done | by eapply registered_layer_component ].
  apply app_inv_head in Heq. injection Heq as -> -> Hzz Hxx Hrow.
  apply str_of_int_inj in Hzz as ->. apply str_of_int_inj in Hxx as ->.
  apply string_app_inv_tail, str_of_int_inj in Hrow.
  do 2 f_equal. lia.
Qed.

Lemma cache_path_injective_witness :
  local_path_of plain_runtime "SkyCover_Tiles" "2025062818" 3 2 (PyInt 2)
  ≠ local_path_of plain_runtime "SkyCover_Tiles" "2025062818" 3 2 (PyInt 1).
Proof.
  apply (cache_path_injective plain_runtime "SkyCover_Tiles" "SkyCover_Tiles"
           "data-layer-tiles/SkyCover_Tiles" "data-layer-tiles/SkyCover_Tiles"
           "2025062818" "2025062818" 3 3 2 2 5 6 (PyInt 2) (PyInt 1));
    first [ reflexivity | lia | discriminate ].
Defined.

(** ** Object paths *)

Lemma lstrip_slash_idemp s : lstrip_slash (lstrip_slash s) = lstrip_slash s.
Proof.
  induction s as [|c s IH]; [done|]. cbn [lstrip_slash].
  destruct (Ascii.eqb c "/") eqn:Hc; [exact IH|]. cbn [lstrip_slash]. by rewrite Hc.
Qed.

Lemma lstrip_slash_no_anchor s : anchor s = None → lstrip_slash s = s.
Proof.
  destruct s as [|c s]; [done|]. cbn [anchor lstrip_slash].
  by destruct (Ascii.eqb c "/"); [destruct s as [|c2 [|c3 s]]; repeat case_match|].
Qed.

Lemma anchor_lstrip_slash s : anchor (lstrip_slash s) = None.
Proof.
  induction s as [|c s IH]; [done|]. cbn [lstrip_slash].
  destruct (Ascii.eqb c "/") eqn:Hc; [exact IH|]. cbn [anchor]. by rewrite Hc.
Qed.

(** X1: [s3key] drops every leading slash of a key and nothing else: a key
    and the same key behind further slashes name one object, the part
    after the bucket never starts with a slash, and a key that does not
    start with a slash is kept as it is. *)
Theorem s3key_leading_slashes key :
  s3key ("/" +:+ key) = s3key key ∧
  s3key (lstrip_slash key) = s3key key ∧
  (∃ rest, s3key key = BUCKET +:+ "/" +:+ rest ∧ anchor rest = None) ∧
  (anchor key = None → s3key key = BUCKET +:+ "/" +:+ key).
Proof.
  unfold s3key. split; [done|]. split; [by rewrite lstrip_slash_idemp|]. split.
  - exists (lstrip_slash key). split; [done | apply anchor_lstrip_slash].
  - intros H. by rewrite lstrip_slash_no_anchor.
Qed.

Lemma s3key_leading_slashes_witness :
  s3key "plots/Temp_Legend_Dark.png"
  = BUCKET +:+ "/" +:+ "plots/Temp_Legend_Dark.png".
Proof.
  destruct (s3key_leading_slashes "plots/Temp_Legend_Dark.png") as (_ & _ & _ & H).
  apply H. reflexivity.
Defined.

(** ** Legends and plots *)

Lemma registered_legends filename key :
  LEGEND_PATHS !! filename = Some key →
  (filename, key) ∈
    [ ("Temp_Dark.png", "plots/Temp_Legend_Dark.png");
      ("Temp_Light.png", "plots/Temp_Legend_Light.png");
      ("Stargazing_Dark.png", "plots/Stargazing_Legend_Dark.png");
      ("Stargazing_Light.png", "plots/Stargazing_Legend_Light.png");
      ("SkyCover_Dark.png", "plots/SkyCover_Legend_Dark.png");
      ("SkyCover_Light.png", "plots/SkyCover_Legend_Light.png");
      ("PrecipProb_Dark.png", "plots/PrecipProb_Legend_Dark.png");
      ("PrecipProb_Light.png", "plots/PrecipProb_Legend_Light.png");
      ("LightPollution_Dark.png", "plots/LightPollution_Legend_Dark.png");
      ("LightPollution_Light.png", "plots/LightPollution_Legend_Light.png") ].
Proof. unfold LEGEND_PATHS. apply elem_of_list_to_map_2. Qed.

(** The key of a registered legend is not empty and is an object of the
    bucket under its own name. *)
Lemma registered_legend_key filename key :
  LEGEND_PATHS !! filename = Some key →
  String.eqb key "" = false ∧ s3key key = BUCKET +:+ "/" +:+ key.
Proof.
  intros H. apply registered_legends in H.
  repeat (apply elem_of_cons in H as [H|H]; [by inversion H|]).
  by apply elem_of_nil in H.
Qed.

Lemma fs_open_read_run R rpath w :
  fs_open_read R rpath w
  = (if net_fault R rpath then Raises ConnectionError
     else match bucket R !! rpath with
          | Some data => Returns data
          | None => Raises FileNotFoundError
          end,
     World (fs w) (clock w) (trace w ++ [EvRemoteOpen rpath])).
Proof.
  unfold fs_open_read. mrun. destruct (net_fault R rpath); [done|].
  by destruct (bucket R !! rpath).
Qed.

Lemma fs_exists_run R rpath w :
  fs_exists R rpath w
  = (if net_fault R rpath then Raises ConnectionError
     else Returns (bool_decide (is_Some (bucket R !! rpath))),
     World (fs w) (clock w) (trace w ++ [EvRemoteExists rpath])).
Proof. unfold fs_exists. mrun. by destruct (net_fault R rpath). Qed.

(** *** Suffixes *)

Lemma substring_skip s : ∀ m k t,
  String.length s = m → substring m k (s +:+ t) = substring 0 k t.
Proof.
  induction s as [|c s IH]; intros m k t Hm; simpl in Hm; subst m; [done|].
  simpl. by apply IH.
Qed.

Lemma substring_all t : substring 0 (String.length t) t = t.
Proof. induction t as [|c t IH]; simpl; [done|]. by rewrite IH. Qed.

Lemma substring_split s : ∀ m,
  (m ≤ String.length s)%nat →
  s = substring 0 m s +:+ substring m (String.length s - m) s.
Proof.
  induction s as [|c s IH]; intros m Hm; simpl in Hm.
  - by replace m with 0%nat by lia.
  - destruct m as [|m]; simpl.
    + by rewrite substring_all.
    + change (String c s
              = String c (substring 0 m s +:+ substring m (String.length s - m) s)).
      f_equal. apply IH. lia.
Qed.

(** [s.endswith(t)] holds exactly when [s] is a string followed by [t]. *)
Lemma endswith_spec s t : endswith s t = true ↔ ∃ b, s = b +:+ t.
Proof.
  unfold endswith. rewrite andb_true_iff, Nat.leb_le, String.eqb_eq. split.
  - intros [Hk Hsub].
    exists (substring 0 (String.length s - String.length t) s).
    pose proof (substring_split s (String.length s - String.length t)) as H.
    replace (String.length s - (String.length s - String.length t))%nat
      with (String.length t) in H by lia.
    rewrite Hsub in H. apply H. lia.
  - intros [b ->]. rewrite string_length_app. split; [lia|].
    replace (String.length b + String.length t - String.length t)%nat
      with (String.length b) by lia.
    rewrite (substring_skip b _ _ t eq_refl). apply substring_all.
Qed.

Lemma lower_app s t : lower (s +:+ t) = lower s +:+ lower t.
Proof. induction s as [|c s IH]; simpl; [done|]. by rewrite IH. Qed.

Lemma lower_app_inv a : ∀ s b,
  lower s = a +:+ b → ∃ s1 s2, s = s1 +:+ s2 ∧ lower s1 = a ∧ lower s2 = b.
Proof.
  induction a as [|c a IH]; intros s b H.
  - by exists "", s.
  - destruct s as [|c' s]; [done|]. simpl in H. injection H as Hc H.
    destruct (IH s b H) as (s1 & s2 & -> & H1 & H2).
    exists (String c' s1), s2. simpl. by rewrite Hc, H1.
Qed.

(** A file name ends in [.gif], whatever the case of its letters, exactly
    when its lower case ends in [.gif]. *)
Lemma endswith_lower_gif filename :
  endswith (lower filename) ".gif" = true
  ↔ ∃ base ext, filename = base +:+ ext ∧ lower ext = ".gif".
Proof.
  rewrite endswith_spec. split.
  - intros [b Hb]. apply lower_app_inv in Hb as (s1 & s2 & -> & _ & H2). by exists s1, s2.
  - intros (base & ext & -> & Hext). exists (lower base). by rewrite lower_app, Hext.
Qed.

(** *** The legend routes *)

(** X6: [get_legend] always returns a response and leaves the file system as
    it is.  For a file name outside the registry it answers 404 with the
    error [Invalid legend], without a call or a log record.  For a
    registered one it opens the object [bucket/key] of the legend once:
    the bytes of the object are returned as [image/png] with the status
    200; when the call fails or the object is absent, the failure is
    logged and the answer is 404 with the error [File not found]. *)
Theorem legend_served_from_bucket R filename w :
  ∃ a w',
    get_legend R filename w = (Returns a, w') ∧
    fs w' = fs w ∧
    (LEGEND_PATHS !! filename = None →
       a = AssetResponse 404 (Text (error_json "Invalid legend"))
             (Some "application/json") [] ∧
       w' = w) ∧
    (∀ key, LEGEND_PATHS !! filename = Some key →
       let rpath := BUCKET +:+ "/" +:+ key in
       (∀ data, net_fault R rpath = false → bucket R !! rpath = Some data →
          a = AssetResponse 200 (Data data) (Some "image/png")
                [("Cache-Control", "public, max-age=604800")] ∧
          trace w' = trace w ++ [EvRemoteOpen rpath]) ∧
       (net_fault R rpath = true ∨ bucket R !! rpath = None →
          a = not_found_json ∧
          trace w' = trace w ++ [EvRemoteOpen rpath;
                                 EvLog ERROR ("Legend fetch error " +:+ key)])).
Proof.
  unfold get_legend.
  destruct (LEGEND_PATHS !! filename) as [key|] eqn:Hk.
  2:{ eexists _, _. split; [done|]. split; [done|]. split; [done|]. done. }
  destruct (registered_legend_key filename key Hk) as [-> Hkey].
  unfold try_except, bind. rewrite fs_open_read_run, Hkey.
  destruct (net_fault R (BUCKET +:+ "/" +:+ key)) eqn:Hf.
  { eexists _, _. split; [done|]. split; [done|]. split; [done|].
    intros key' [= <-]. cbn zeta. rewrite Hf. split; [done|].
    intros _. mrun. done. }
  destruct (bucket R !! (BUCKET +:+ "/" +:+ key)) as [data|] eqn:Hb.
  - eexists _, _. split; [done|]. split; [done|]. split; [done|].
    intros key' [= <-]. cbn zeta. rewrite Hf, Hb. split.
    + intros data' _ [= <-]. done.
    + intros [?|?]; done.
  - eexists _, _. split; [done|]. split; [done|]. split; [done|].
    intros key' [= <-]. cbn zeta. rewrite Hf, Hb. split; [done|].
    intros _. mrun. done.
Qed.

Lemma legend_served_from_bucket_witness :
  fst (get_legend asset_runtime "Temp_Dark.png" (startup_world 0))
  = Returns (AssetResponse 200 (Data sample_tile) (Some "image/png")
               [("Cache-Control", "public, max-age=604800")]) ∧
  fst (get_legend asset_runtime "Unknown.png" (startup_world 0))
  = Returns (AssetResponse 404 (Text (error_json "Invalid legend"))
               (Some "application/json") []).
Proof.
  split.
  - destruct (legend_served_from_bucket asset_runtime "Temp_Dark.png" (startup_world 0))
      as (a & w' & Hrun & _ & _ & H).
    rewrite Hrun.
    destruct (H "plots/Temp_Legend_Dark.png" eq_refl) as [H1 _].
    destruct (H1 sample_tile eq_refl eq_refl) as [-> _]. reflexivity.
  - destruct (legend_served_from_bucket asset_runtime "Unknown.png" (startup_world 0))
      as (a & w' & Hrun & _ & H & _).
    rewrite Hrun. destruct (H eq_refl) as [-> _]. reflexivity.
Defined.

(** X7: The HEAD route of a legend answers with the status that the GET
    route answers with: 200 when the legend is registered and its object
    is found without a failure of the call, 404 in every other case; it
    always returns a response and leaves the file system as it is. *)
Theorem head_legend_agrees_with_get R filename w :
  ∃ r a,
    fst (head_legend R filename w) = Returns r ∧
    fst (get_legend R filename w) = Returns a ∧
    status r = asset_status a ∧
    (status r = 200 ∨ status r = 404) ∧
    (status r = 200 ↔
       ∃ key, LEGEND_PATHS !! filename = Some key ∧
              net_fault R (BUCKET +:+ "/" +:+ key) = false ∧
              is_Some (bucket R !! (BUCKET +:+ "/" +:+ key))) ∧
    fs (snd (head_legend R filename w)) = fs w.
Proof.
  unfold head_legend, get_legend.
  destruct (LEGEND_PATHS !! filename) as [key|] eqn:Hk.
  2:{ eexists _, _. split; [done|]. split; [done|]. split; [done|].
      split; [by right|]. split; [|done]. split; [done|]. by intros (? & ? & _). }
  destruct (registered_legend_key filename key Hk) as [-> Hkey].
  unfold try_except, bind. rewrite fs_open_read_run, fs_exists_run, Hkey.
  destruct (net_fault R (BUCKET +:+ "/" +:+ key)) eqn:Hf.
  { mrun. eexists _, _. split; [done|]. split; [done|]. split; [done|].
    split; [by right|]. split; [|done]. split; [done|].
    intros (key' & [= <-] & Hf' & _). congruence. }
  destruct (bucket R !! (BUCKET +:+ "/" +:+ key)) as [data|] eqn:Hb.
  - rewrite bool_decide_true by (by eexists).
    eexists _, _. split; [done|]. split; [done|]. split; [done|].
    split; [by left|]. split; [|done]. split; [|done].
    intros _. exists key. rewrite Hb. split; [done|]. split; [done|]. by eexists.
  - rewrite bool_decide_false by (by intros [? ?]). mrun.
    eexists _, _. split; [done|]. split; [done|]. split; [done|].
    split; [by right|]. split; [|done]. split; [done|].
    intros (key' & [= <-] & _ & [? Hx]). congruence.
Qed.

Lemma head_legend_agrees_with_get_witness :
  fst (head_legend asset_runtime "Temp_Dark.png" (startup_world 0))
  = Returns (Response 200 "").
Proof.
  destruct (head_legend_agrees_with_get asset_runtime "Temp_Dark.png" (startup_world 0))
    as (r & a & Hr & _ & _ & _ & [_ H] & _).
  rewrite Hr. f_equal.
  assert (Hs : status r = 200).
  { apply H. exists "plots/Temp_Legend_Dark.png".
    split; [reflexivity|]. split; [reflexivity|]. vm_compute. eexists. reflexivity. }
  revert Hr Hs. vm_compute. intros [= <-]. reflexivity.
Defined.

(** *** The plot routes *)

(** X8: [get_plot_gif] always returns a response and leaves the file system
    as it is.  It opens the object [bucket/plots/filename] once.  The
    bytes of the object are returned with the status 200, as [image/gif]
    when the file name ends in [.gif] in whatever case of the letters,
    and as [image/png] otherwise; when the call fails or the object is
    absent, the failure is logged and the answer is 404 with the error
    [File not found]. *)
Theorem plot_served_from_bucket R filename w :
  let rpath := BUCKET +:+ "/plots/" +:+ filename in
  ∃ a w',
    get_plot_gif R filename w = (Returns a, w') ∧
    fs w' = fs w ∧
    (∀ data, net_fault R rpath = false → bucket R !! rpath = Some data →
       asset_status a = 200 ∧
       asset_content a = Data data ∧
       asset_headers a = [("Cache-Control", "public, max-age=1800")] ∧
       ((∃ base ext, filename = base +:+ ext ∧ lower ext = ".gif") →
          asset_media_type a = Some "image/gif") ∧
       (¬ (∃ base ext, filename = base +:+ ext ∧ lower ext = ".gif") →
          asset_media_type a = Some "image/png") ∧
       trace w' = trace w ++ [EvRemoteOpen rpath]) ∧
    (net_fault R rpath = true ∨ bucket R !! rpath = None →
       a = not_found_json ∧
       trace w' = trace w ++ [EvRemoteOpen rpath;
                              EvLog ERROR ("Plot fetch error " +:+ "plots/" +:+ filename)]).
Proof.
  intros rpath. unfold get_plot_gif.
  unfold try_except, bind. rewrite fs_open_read_run.
  change (s3key ("plots/" +:+ filename)) with rpath.
  destruct (net_fault R rpath) eqn:Hf.
  { mrun. eexists _, _. split; [done|]. split; [done|]. split; [done|]. done. }
  destruct (bucket R !! rpath) as [data|] eqn:Hb.
  - eexists _, _. split; [done|]. split; [done|]. split.
    + intros data' _ [= <-]. cbn [asset_status asset_content asset_headers asset_media_type].
      split; [done|]. split; [done|]. split; [done|]. split; [|split]; [| |done].
      * intros H. apply endswith_lower_gif in H. by rewrite H.
      * intros H. destruct (endswith (lower filename) ".gif") eqn:He; [|done].
        destruct H. by apply endswith_lower_gif.
    + intros [?|?]; done.
  - mrun. eexists _, _. split; [done|]. split; [done|]. split; [done|]. done.
Qed.

Lemma plot_served_from_bucket_witness :
  ∃ a, fst (get_plot_gif asset_runtime "forecast.GIF" (startup_world 0)) = Returns a ∧
       asset_media_type a = Some "image/gif" ∧ asset_content a = Data sample_blank.
Proof.
  destruct (plot_served_from_bucket asset_runtime "forecast.GIF" (startup_world 0))
    as (a & w' & Hrun & _ & H & _).
  exists a. rewrite Hrun. split; [reflexivity|].
  destruct (H sample_blank eq_refl eq_refl) as (_ & Hc & _ & Hgif & _).
  split; [|exact Hc]. apply Hgif. exists "forecast", ".GIF". split; reflexivity.
Defined.

(** X9: The HEAD route of a plot answers with the status that the GET route
    answers with: 200 when the object [bucket/plots/filename] is found
    without a failure of the call, 404 in every other case; it always
    returns a response and leaves the file system as it is. *)
Theorem head_plot_agrees_with_get R filename w :
  let rpath := BUCKET +:+ "/plots/" +:+ filename in
  ∃ r a,
    fst (head_plot_gif R filename w) = Returns r ∧
    fst (get_plot_gif R filename w) = Returns a ∧
    status r = asset_status a ∧
    (status r = 200 ∨ status r = 404) ∧
    (status r = 200 ↔ net_fault R rpath = false ∧ is_Some (bucket R !! rpath)) ∧
    fs (snd (head_plot_gif R filename w)) = fs w.
Proof.
  intros rpath. unfold head_plot_gif, get_plot_gif.
  unfold try_except, bind. rewrite fs_open_read_run, fs_exists_run.
  change (s3key ("plots/" +:+ filename)) with rpath.
  destruct (net_fault R rpath) eqn:Hf.
  { mrun. eexists _, _. split; [done|]. split; [done|]. split; [done|].
    split; [by right|]. split; [|done]. split; [done|]. by intros [? _]. }
  destruct (bucket R !! rpath) as [data|] eqn:Hb.
  - rewrite bool_decide_true by (by eexists).
    eexists _, _. split; [done|]. split; [done|]. split; [done|].
    split; [by left|]. split; [|done]. split; [|done].
    intros _. split; [done|]. by eexists.
  - rewrite bool_decide_false by (by intros [? ?]). mrun.
    eexists _, _. split; [done|]. split; [done|]. split; [done|].
    split; [by right|]. split; [|done]. split; [done|].
    intros [_ [? Hx]]. congruence.
Qed.

Lemma head_plot_agrees_with_get_witness :
  ∃ r, fst (head_plot_gif asset_runtime "forecast.GIF" (startup_world 0)) = Returns r ∧
       status r = 200.
Proof.
  destruct (head_plot_agrees_with_get asset_runtime "forecast.GIF" (startup_world 0))
    as (r & a & Hr & _ & _ & _ & [_ H] & _).
  exists r. split; [exact Hr|]. apply H.
  split; [reflexivity|]. vm_compute. eexists. reflexivity.
Defined.

(** ** A fetched tile is served from the cache *)

Lemma prefixes_self (p : path) : p ≠ [] → p ∈ prefixes p.
Proof.
  induction p as [|c p IH]; [done|]. intros _. simpl.
  destruct p as [|c' p]; [by left|].
  right. apply list_elem_of_In, in_map, list_elem_of_In, IH. done.
Qed.

Lemma parent_ready_after_mkdir t p f f1 :
  mkdir_p t (parent p) f = Returns f1 → parent_ready f1 p = true.
Proof.
  intros Hmk. unfold parent_ready.
  destruct (parent p) as [|c q] eqn:Hp; [done|].
  apply mkdir_p_spec in Hmk as (_ & Hd & _). apply Hd. by apply prefixes_self.
Qed.

Lemma write_file_ok R p data w :
  io_fault R OpWrite p = false → parent_ready (fs w) p = true →
  is_dir (fs w !! p) = false →
  write_file R p data w
  = (Returns tt, World (<[p := File data (clock w)]> (fs w)) (clock w) (trace w)).
Proof. intros Hf Hp Hd. unfold write_file. by rewrite Hf, Hp, Hd. Qed.

(** A miss of the cache with a successful download: the tile is stored at
    its cache path and its bytes are returned. *)
Lemma get_tile_fetch R layer prefix timestamp z x y row w data :
  LAYER_PATHS !! layer = Some prefix →
  slippy_y_from_tms z y = Returns row →
  let lp := local_path_of R layer timestamp z x row in
  let key := s3key (key_of R prefix layer timestamp z x row) in
  (∀ q, q ∈ prefixes (parent lp) → is_file (fs w !! q) = false) →
  fs w !! lp = None →
  net_fault R key = false → bucket R !! key = Some data →
  io_fault R OpWrite lp = false → io_fault R OpRead lp = false →
  ∃ f1,
    mkdir_p (clock w) (parent lp) (fs w) = Returns f1 ∧
    get_tile_with_timestamp R layer timestamp z x y w
    = (Returns (StreamingResponse data tile_headers None),
       World (<[lp := File data (clock w)]> f1) (clock w)
         (trace w ++ [EvMkdir (parent lp); EvExists lp; EvRemoteGet key lp; EvOpen lp])).
Proof.
  intros Hl Hs lp key Hfiles Hlp Hnet Hb Hw Hr.
  destruct (mkdir_p_succeeds (clock w) (parent lp) (fs w) Hfiles) as [f1 Hmk].
  exists f1. split; [done|].
  assert (Hne : lp ≠ []) by apply local_path_of_nonempty.
  unfold get_tile_with_timestamp. rewrite Hl.
  rewrite (bind_returns (lift _) _ w row w) by (unfold lift; by rewrite Hs).
  fold lp key. clearbody lp key.
  rewrite (bind_returns (mkdir_parents _) _ w tt _ (mkdir_parents_returns _ _ _ Hmk)).
  rewrite (bind_returns (path_exists _) _ _ _ _ (path_exists_run _ _)).
  cbn [fs clock trace]. rewrite <- app_assoc. cbn [app].
  assert (Hf1 : f1 !! lp = None).
  { pose proof Hmk as Hmk'. apply mkdir_p_spec in Hmk' as (_ & _ & Hn & _).
    rewrite Hn; [done | by apply not_prefix_of_parent]. }
  rewrite exists_in_nonempty by done.
  rewrite bool_decide_false by (apply eq_None_not_Some; exact Hf1).
  unfold try_except.
  assert (Hget : fs_get R key lp
            (World f1 (clock w) (trace w ++ [EvMkdir (parent lp); EvExists lp]))
          = (Returns tt,
             World (<[lp := File data (clock w)]> f1) (clock w)
               (trace w ++ [EvMkdir (parent lp); EvExists lp; EvRemoteGet key lp]))).
  { unfold fs_get. mrun. rewrite Hnet, Hb.
    rewrite write_file_ok; cbn [fs clock trace]; try done.
    - by eapply parent_ready_after_mkdir.
    - change (is_dir (f1 !! lp) = false). by rewrite Hf1. }
  rewrite (bind_returns _ _ _ _ _ Hget).
  erewrite bind_returns
    by (eapply (open_rb_file R lp _ data (clock w)); [apply lookup_insert_eq | done]).
  mrun. done.
Qed.

(** X3: The first GET of a tile that the bucket holds downloads it to its
    cache path and returns its bytes; a second GET of the same request
    returns the same bytes from the cache, with no remote call and no
    change to the file system.  This holds where no regular file is in
    the way of the directories of the cache path, the download does not
    fail, and the cached file can be written and read. *)
Theorem fetched_tile_is_cached R layer prefix timestamp z x y row w data :
  LAYER_PATHS !! layer = Some prefix →
  slippy_y_from_tms z y = Returns row →
  let lp := local_path_of R layer timestamp z x row in
  let key := s3key (key_of R prefix layer timestamp z x row) in
  (∀ q, q ∈ prefixes (parent lp) → is_file (fs w !! q) = false) →
  fs w !! lp = None →
  net_fault R key = false → bucket R !! key = Some data →
  io_fault R OpWrite lp = false → io_fault R OpRead lp = false →
  let first := get_tile_with_timestamp R layer timestamp z x y w in
  let second := get_tile_with_timestamp R layer timestamp z x y (snd first) in
  fst first = Returns (StreamingResponse data tile_headers None) ∧
  trace (snd first)
  = trace w ++ [EvMkdir (parent lp); EvExists lp; EvRemoteGet key lp; EvOpen lp] ∧
  fs (snd first) !! lp = Some (File data (clock w)) ∧
  fst second = Returns (StreamingResponse data tile_headers None) ∧
  fs (snd second) = fs (snd first) ∧
  trace (snd second) = trace (snd first) ++ [EvMkdir (parent lp); EvExists lp; EvOpen lp].
Proof.
  intros Hl Hs lp key Hfiles Hlp Hnet Hb Hw Hr first second.
  destruct (get_tile_fetch R layer prefix timestamp z x y row w data
              Hl Hs Hfiles Hlp Hnet Hb Hw Hr) as (f1 & Hmk & Hrun).
  fold lp key in Hmk, Hrun.
  assert (Hne : lp ≠ []) by apply local_path_of_nonempty.
  unfold second, first. rewrite Hrun. cbn [fst snd fs clock trace].
  split; [done|]. split; [done|]. split; [apply lookup_insert_eq|].
  rewrite (get_tile_cache_hit R layer prefix timestamp z x y row _ data (clock w) Hl Hs).
  - done.
  - intros q Hq. cbn [fs].
    rewrite lookup_insert_ne by (intros <-; by apply (not_prefix_of_parent lp)).
    by apply (mkdir_p_spec _ _ _ _ Hmk).
  - apply lookup_insert_eq.
  - done.
Qed.

Lemma fetched_tile_is_cached_witness :
  fst (get_tile_with_timestamp full_runtime "SkyCover_Tiles" "2025062818" 3 2 5
         (startup_world 100))
  = Returns (StreamingResponse sample_tile tile_headers None) ∧
  fst (get_tile_with_timestamp full_runtime "SkyCover_Tiles" "2025062818" 3 2 5
         (snd (get_tile_with_timestamp full_runtime "SkyCover_Tiles" "2025062818" 3 2 5
                 (startup_world 100))))
  = Returns (StreamingResponse sample_tile tile_headers None).
Proof.
  destruct (fetched_tile_is_cached full_runtime "SkyCover_Tiles"
              "data-layer-tiles/SkyCover_Tiles" "2025062818" 3 2 5 (PyInt 2)
              (startup_world 100) sample_tile) as (H1 & _ & _ & H2 & _);
    [reflexivity | reflexivity | | vm_compute; reflexivity | reflexivity
    | vm_compute; reflexivity | reflexivity | reflexivity | by split].
  intros q Hq. revert q Hq. apply Forall_forall. vm_compute.
  repeat constructor.
Defined.

(** ** The blank tile *)

Lemma blank_tile_path_nonempty : blank_tile_path ≠ [].
Proof. by vm_compute. Qed.

(** X4: When the blank tile is neither in the cache nor to be had from the
    bucket, because the call fails, the object is absent or the download
    cannot be written, [serve_blank_tile] answers with the status 500
    and leaves the file system as it is: nothing is stored at the cache
    path of the tile. *)
Theorem blank_tile_unavailable R cache_path w :
  fs w !! blank_tile_path = None →
  net_fault R (s3key blank_tile_key) = true ∨
  bucket R !! s3key blank_tile_key = None ∨
  io_fault R OpWrite blank_tile_path = true →
  serve_blank_tile R cache_path w
  = (Returns (Response 500 "Tile and fallback missing"),
     World (fs w) (clock w)
       (trace w ++ [EvExists blank_tile_path;
                    EvRemoteGet (s3key blank_tile_key) blank_tile_path;
                    EvLog ERROR ("Failed to fetch blank tile " +:+ blank_tile_key)])).
Proof.
  intros Hb Hbad. unfold serve_blank_tile.
  rewrite (bind_returns (path_exists _) _ _ _ _ (path_exists_run _ _)).
  cbn [fs clock trace].
  rewrite exists_in_nonempty by apply blank_tile_path_nonempty.
  rewrite bool_decide_false by (apply eq_None_not_Some; exact Hb).
  unfold fs_get, write_file. mrun.
  destruct (net_fault R (s3key blank_tile_key)) eqn:Hf; [by mrun|].
  destruct (bucket R !! s3key blank_tile_key) as [data|] eqn:Hd; [|by mrun].
  destruct (io_fault R OpWrite blank_tile_path) eqn:Hw; [by mrun|].
  by destruct Hbad as [?|[?|?]].
Qed.

Lemma blank_tile_unavailable_witness :
  fst (serve_blank_tile plain_runtime
         (local_path_of plain_runtime "SkyCover_Tiles" "2025062818" 3 2 (PyInt 2))
         (startup_world 0))
  = Returns (Response 500 "Tile and fallback missing").
Proof.
  rewrite (blank_tile_unavailable plain_runtime _ (startup_world 0));
    [reflexivity | vm_compute; reflexivity | right; left; vm_compute; reflexivity].
Defined.

Lemma write_file_keeps R p data w q t :
  fs w !! q = Some (File data t) →
  ∃ t', fs (snd (write_file R p data w)) !! q = Some (File data t').
Proof.
  intros Hq. unfold write_file.
  destruct (io_fault R OpWrite p); [by eexists|].
  destruct (negb (parent_ready (fs w) p)); [by eexists|].
  destruct (is_dir (fs w !! p)); [by eexists|].
  cbn [snd fs]. destruct (decide (q = p)) as [->|Hne].
  - rewrite lookup_insert_eq. by eexists.
  - rewrite lookup_insert_ne by done. by eexists.
Qed.

Lemma write_file_run R p data w :
  ∃ o f, write_file R p data w = (o, World f (clock w) (trace w)) ∧
         f = fs (snd (write_file R p data w)).
Proof.
  unfold write_file.
  destruct (io_fault R OpWrite p); [destruct w; by eexists _, _|].
  destruct (negb (parent_ready (fs w) p)); [destruct w; by eexists _, _|].
  destruct (is_dir (fs w !! p)); [destruct w; by eexists _, _|].
  by eexists _, _.
Qed.

(** The best-effort copy of the blank tile to a cache path. *)
Lemma persist_blank R cache_path w blank t :
  fs w !! blank_tile_path = Some (File blank t) →
  io_fault R OpRead blank_tile_path = false →
  ∃ w2,
    try_except
      (mkdir_parents (parent cache_path) ;;
       data <- read_bytes R blank_tile_path ;;
       write_bytes R cache_path data)
      (λ _, ret tt) w
    = (Returns tt, w2) ∧
    clock w2 = clock w ∧
    (∃ t', fs w2 !! blank_tile_path = Some (File blank t')) ∧
    (∃ evs, trace w2 = trace w ++ evs ∧
            forallb (λ e, negb (is_remote e)) evs = true) ∧
    ((∀ q, q ∈ prefixes (parent cache_path) → is_file (fs w !! q) = false) →
     is_dir (fs w !! cache_path) = false →
     io_fault R OpWrite cache_path = false →
     fs w2 !! cache_path = Some (File blank (clock w))).
Proof.
  intros Hb Hr. unfold try_except.
  destruct (mkdir_p (clock w) (parent cache_path) (fs w)) as [f1|e] eqn:Hmk.
  - rewrite (bind_returns _ _ _ _ _ (mkdir_parents_returns _ _ _ Hmk)).
    assert (Hb1 : f1 !! blank_tile_path = Some (File blank t)).
    { pose proof Hmk as Hmk'. apply mkdir_p_spec in Hmk' as (_ & _ & _ & Hs).
      rewrite Hs; [done | by eexists]. }
    unfold read_bytes, write_bytes.
    rewrite (bind_returns (emit _ ;; read_file _ _) _ _ blank
               (World f1 (clock w)
                  (trace w ++ [EvMkdir (parent cache_path); EvRead blank_tile_path]))).
    2:{ unfold bind, emit. cbn [fs clock trace].
        rewrite (read_file_file R blank_tile_path (World f1 (clock w) _) blank t Hb1 Hr).
        by rewrite <- app_assoc. }
    unfold bind, emit. cbn [fs clock trace]. rewrite <- app_assoc. cbn [app].
    set (w1 := World f1 (clock w)
                 (trace w ++ [EvMkdir (parent cache_path); EvRead blank_tile_path;
                              EvWrite cache_path])).
    destruct (write_file_run R cache_path blank w1) as (o & f2 & Hrun & Hf2).
    destruct (write_file_keeps R cache_path blank w1 blank_tile_path t Hb1) as [t' Hb2].
    rewrite <- Hf2 in Hb2. rewrite Hrun. cbn [clock trace].
    exists (World f2 (clock w)
              (trace w ++ [EvMkdir (parent cache_path); EvRead blank_tile_path;
                           EvWrite cache_path])).
    split; [by destruct o as [[]|e]|]. cbn [fs clock trace].
    split; [done|]. split; [by eexists|]. split; [by eexists|].
    intros Hfiles Hdir Hw. rewrite Hf2. unfold write_file. subst w1.
    cbn [fs clock trace]. rewrite Hw, (parent_ready_after_mkdir _ _ _ _ Hmk).
    assert (Hd1 : is_dir (f1 !! cache_path) = false).
    { destruct (fs w !! cache_path) as [n|] eqn:Hc.
      - apply mkdir_p_spec in Hmk as (_ & _ & _ & Hs).
        rewrite Hs by (by eexists). by rewrite Hc.
      - destruct (decide (cache_path = [])) as [->|Hne].
        + apply mkdir_p_spec in Hmk as (_ & _ & Hn & _).
          rewrite Hn, Hc; [done|]. simpl. apply not_elem_of_nil.
        + apply mkdir_p_spec in Hmk as (_ & _ & Hn & _).
          rewrite Hn, Hc; [done|]. by apply not_prefix_of_parent. }
    cbn [negb]. rewrite Hd1. cbn [snd fs]. apply lookup_insert_eq.
  - rewrite (bind_raises _ _ _ _ _ (mkdir_parents_raises _ _ _ Hmk)).
    eexists. split; [reflexivity|]. cbn [fs clock trace].
    split; [done|]. split; [by eexists|]. split; [by eexists|].
    intros Hfiles. destruct (mkdir_p_succeeds (clock w) _ _ Hfiles) as [f1 Hf1].
    congruence.
Qed.

(** X5: With the blank tile in the cache, [serve_blank_tile] returns its
    bytes as [image/png] whether or not the copy to the cache path of the
    tile can be made, and reaches no remote store.  Where no regular file
    is in the way of the directories of the cache path, the cache path is
    no directory and the write does not fail, the copy is at the cache
    path afterwards. *)
Theorem blank_tile_best_effort R cache_path w blank t :
  fs w !! blank_tile_path = Some (File blank t) →
  io_fault R OpRead blank_tile_path = false →
  ∃ w',
    serve_blank_tile R cache_path w
    = (Returns (StreamingResponse blank [] (Some "image/png")), w') ∧
    (∃ evs, trace w' = trace w ++ evs ∧
            forallb (λ e, negb (is_remote e)) evs = true) ∧
    ((∀ q, q ∈ prefixes (parent cache_path) → is_file (fs w !! q) = false) →
     is_dir (fs w !! cache_path) = false →
     io_fault R OpWrite cache_path = false →
     fs w' !! cache_path = Some (File blank (clock w))).
Proof.
  intros Hb Hr. unfold serve_blank_tile.
  rewrite (bind_returns (path_exists _) _ _ _ _ (path_exists_run _ _)).
  cbn [fs clock trace].
  rewrite exists_in_nonempty by apply blank_tile_path_nonempty.
  rewrite bool_decide_true by (by eexists).
  rewrite (bind_returns (ret None) _ _ None _ eq_refl).
  destruct (persist_blank R cache_path
              (World (fs w) (clock w) (trace w ++ [EvExists blank_tile_path])) blank t
              Hb Hr) as (w2 & Hrun & Hc & [t' Hb2] & (evs & Ht & Hevs) & Hcopy).
  cbn [fs clock trace] in *.
  rewrite (bind_returns _ _ _ _ _ Hrun).
  rewrite (bind_returns _ _ _ _ _ (open_rb_file R blank_tile_path w2 blank t' Hb2 Hr)).
  eexists. split; [reflexivity|]. cbn [fs clock trace]. split; [|done].
  exists (EvExists blank_tile_path :: evs ++ [EvOpen blank_tile_path]).
  rewrite Ht, <- !app_assoc. split; [done|].
  cbn [forallb]. rewrite forallb_app, Hevs. done.
Qed.

Lemma blank_tile_best_effort_witness :
  ∃ w',
    serve_blank_tile blank_only_runtime
      (local_path_of blank_only_runtime "SkyCover_Tiles" "2025062818" 3 2 (PyInt 3))
      missed_world
    = (Returns (StreamingResponse sample_blank [] (Some "image/png")), w') ∧
    fs w' !! local_path_of blank_only_runtime "SkyCover_Tiles" "2025062818" 3 2 (PyInt 3)
    = Some (File sample_blank (clock missed_world)).
Proof.
  destruct (blank_tile_best_effort blank_only_runtime
              (local_path_of blank_only_runtime "SkyCover_Tiles" "2025062818" 3 2 (PyInt 3))
              missed_world sample_blank 100) as (w' & Hrun & _ & Hcopy);
    [vm_compute; reflexivity | reflexivity |].
  exists w'. split; [exact Hrun|]. apply Hcopy; [|vm_compute; reflexivity | reflexivity].
  apply Forall_forall. vm_compute. repeat constructor.
Defined.

(** ** The clean-up only removes files *)

(** One tile of the sweep either leaves the file system as it is, or
    deletes the tile, a regular file, and counts it. *)
Lemma cleanup_tile_cases R now deleted tile w :
  ∃ deleted' w',
    cleanup_tile R now deleted tile w = (Returns deleted', w') ∧
    ((fs w' = fs w ∧ deleted' = deleted) ∨
     ((∃ data t, fs w !! tile = Some (File data t)) ∧
      fs w' = delete tile (fs w) ∧ deleted' = deleted + 1)).
Proof.
  unfold cleanup_tile, stat_mtime, unlink. mrun.
  destruct (io_fault R OpStat tile); mrun; [eexists _, _; by repeat split; try left|].
  destruct (fs w !! tile) as [n|] eqn:Hn; mrun;
    [|eexists _, _; by repeat split; try left].
  destruct (now - node_mtime n >? CACHE_EXPIRY_SECONDS); mrun;
    [|eexists _, _; by repeat split; try left].
  rewrite Hn.
  destruct (io_fault R OpUnlink tile); mrun; [eexists _, _; by repeat split; try left|].
  destruct n as [t|data t]; mrun; [eexists _, _; by repeat split; try left|].
  eexists _, _. split; [done|]. right. split; [by eexists _, _ | done].
Qed.

Lemma cleanup_tiles_removes_files R now tiles : ∀ deleted w,
  ∃ deleted' w',
    cleanup_tiles R now deleted tiles w = (Returns deleted', w') ∧
    (∀ p n, fs w' !! p = Some n → fs w !! p = Some n) ∧
    (∀ p, is_dir (fs w !! p) = true → is_dir (fs w' !! p) = true) ∧
    deleted' - deleted = Z.of_nat (size (fs w)) - Z.of_nat (size (fs w')).
Proof.
  induction tiles as [|tile rest IH]; intros deleted w.
  - exists deleted, w. split; [done|]. split; [done|]. split; [done|]. lia.
  - destruct (cleanup_tile_cases R now deleted tile w) as (d1 & w1 & Hrun1 & Hcase).
    destruct (IH d1 w1) as (d2 & w2 & Hrun2 & Hsub & Hdirs & Hcount).
    exists d2, w2.
    split; [simpl; by rewrite (bind_returns _ _ _ _ _ Hrun1)|].
    destruct Hcase as [[Hfs ->]|((data & t & Htile) & Hfs & ->)]; rewrite Hfs in *.
    + done.
    + split; [|split].
      * intros p n Hp. apply Hsub in Hp. by apply lookup_delete_Some in Hp as [_ Hp].
      * intros p Hp. apply Hdirs. rewrite lookup_delete_ne; [done|].
        intros <-. by rewrite Htile in Hp.
      * rewrite map_size_delete_Some in Hcount by (by eexists).
        pose proof (map_size_ne_0_lookup_2 (fs w) tile (ex_intro _ _ Htile)). lia.
Qed.

(** X10: a sweep of the clean-up removes regular files and does nothing
    else to the entries of the file system: an entry that is there
    afterwards was there before, a file with the same bytes and the same
    time, and a directory stays a directory.  The number that the sweep
    counts and reports in its log is the number of the entries it has
    removed. *)
Theorem sweep_only_removes R w :
  ∃ deleted w',
    cleanup_sweep R w = (Returns deleted, w') ∧
    (∀ p, is_Some (fs w' !! p) → is_Some (fs w !! p)) ∧
    (∀ p data t, fs w' !! p = Some (File data t) → fs w !! p = Some (File data t)) ∧
    (∀ p, is_dir (fs w !! p) = true → is_dir (fs w' !! p) = true) ∧
    deleted = Z.of_nat (size (fs w)) - Z.of_nat (size (fs w')) ∧
    ∃ evs, trace w'
           = trace w ++ EvRglob CACHE_DIR :: evs
               ++ [EvLog INFO ("Cache cleanup complete. Deleted "
                                 +:+ str_of_int deleted +:+ " tiles.")].
Proof.
  pose (tiles := List.filter (λ p, is_below CACHE_DIR p && endswith (name p) ".png")
                   (List.map fst (map_to_list (fs w)))).
  destruct (cleanup_tiles_removes_files R (clock w) tiles 0
              (World (fs w) (clock w) (trace w ++ [EvRglob CACHE_DIR])))
    as (d & w2 & Hrun & Hsub & Hdirs & Hcount).
  destruct (cleanup_tiles_spec R (clock w) tiles (cached_png_NoDup (fs w)) 0
              (World (fs w) (clock w) (trace w ++ [EvRglob CACHE_DIR])))
    as (d' & w2' & Hrun' & _ & [evs Ht] & _).
  rewrite Hrun in Hrun'. injection Hrun' as <- <-.
  cbn [fs clock trace] in *.
  exists d, (World (fs w2) (clock w2)
               (trace w2 ++ [EvLog INFO ("Cache cleanup complete. Deleted "
                                           +:+ str_of_int d +:+ " tiles.")])).
  split.
  { unfold cleanup_sweep, rglob_png. mrun. fold tiles. by rewrite Hrun. }
  cbn [fs clock trace].
  split; [intros p [n Hn]; exists n; by apply Hsub|].
  split; [intros p data t; apply Hsub|].
  split; [done|]. split; [lia|].
  exists evs. rewrite Ht, <- !app_assoc. done.
Qed.

Lemma sweep_only_removes_witness :
  fst (cleanup_sweep plain_runtime aged_world) = Returns 1.
Proof.
  destruct (sweep_only_removes plain_runtime aged_world)
    as (d & w' & Hrun & _ & _ & _ & Hd & _).
  rewrite Hrun. cbn [fst]. f_equal. rewrite Hd.
  replace w' with (snd (cleanup_sweep plain_runtime aged_world)) by (by rewrite Hrun).
  vm_compute. reflexivity.
Defined.

(** ** The timestamp segment of a key *)

Lemma split_slash_nonempty s : split_slash s ≠ [].
Proof.
  destruct s as [|c s]; [done|]. cbn [split_slash].
  destruct (Ascii.eqb c "/"); [done|]. by destruct (split_slash s).
Qed.

(** The segments of two strings joined by a slash are the segments of
    the one followed by the segments of the other. *)
Lemma split_slash_app s t :
  split_slash (s +:+ "/" +:+ t) = split_slash s ++ split_slash t.
Proof.
  induction s as [|c s IH]; [done|].
  change (String c s +:+ "/" +:+ t) with (String c (s +:+ "/" +:+ t)).
  cbn [split_slash]. rewrite IH.
  destruct (Ascii.eqb c "/"); [done|].
  pose proof (split_slash_nonempty s) as Hne.
  by destruct (split_slash s) as [|h l].
Qed.

(** The download of a GET that misses the cache, and the existence check
    of a HEAD that misses it, name the object of the key. *)
Lemma head_tile_remote_check R layer prefix timestamp z x y row w :
  LAYER_PATHS !! layer = Some prefix →
  slippy_y_from_tms z y = Returns row →
  let lp := local_path_of R layer timestamp z x row in
  fs w !! lp = None →
  ∃ rest,
    trace (snd (head_tile_with_timestamp R layer timestamp z x y w))
    = trace w ++ EvExists lp
        :: EvRemoteExists (s3key (key_of R prefix layer timestamp z x row)) :: rest.
Proof.
  intros Hl Hs lp Hlp.
  assert (Hne : lp ≠ []) by apply local_path_of_nonempty.
  unfold head_tile_with_timestamp. rewrite Hl.
  rewrite (bind_returns (lift _) _ w row w) by (unfold lift; by rewrite Hs).
  fold lp. clearbody lp.
  rewrite (bind_returns (path_exists _) _ _ _ _ (path_exists_run _ _)).
  cbn [fs clock trace].
  rewrite exists_in_nonempty by done.
  rewrite bool_decide_false by (apply eq_None_not_Some; exact Hlp).
  unfold try_except, bind. rewrite fs_exists_run. cbn [fs clock trace].
  destruct (net_fault R (s3key (key_of R prefix layer timestamp z x row))).
  - mrun. by eexists.
  - cbn [ret snd trace]. rewrite <- app_assoc. by eexists.
Qed.

Lemma get_tile_download R layer prefix timestamp z x y row w :
  LAYER_PATHS !! layer = Some prefix →
  slippy_y_from_tms z y = Returns row →
  let lp := local_path_of R layer timestamp z x row in
  fs w !! lp = None →
  (∀ q, q ∈ prefixes (parent lp) → is_file (fs w !! q) = false) →
  ∃ rest,
    trace (snd (get_tile_with_timestamp R layer timestamp z x y w))
    = trace w ++ EvMkdir (parent lp) :: EvExists lp
        :: EvRemoteGet (s3key (key_of R prefix layer timestamp z x row)) lp :: rest.
Proof.
  intros Hl Hs lp Hlp Hfiles.
  destruct (mkdir_p_succeeds (clock w) (parent lp) (fs w) Hfiles) as [f1 Hmk].
  assert (Hne : lp ≠ []) by apply local_path_of_nonempty.
  unfold get_tile_with_timestamp. rewrite Hl.
  rewrite (bind_returns (lift _) _ w row w) by (unfold lift; by rewrite Hs).
  fold lp. clearbody lp.
  set (key := s3key (key_of R prefix layer timestamp z x row)).
  rewrite (bind_returns (mkdir_parents _) _ w tt _ (mkdir_parents_returns _ _ _ Hmk)).
  rewrite (bind_returns (path_exists _) _ _ _ _ (path_exists_run _ _)).
  cbn [fs clock trace]. rewrite <- app_assoc. cbn [app].
  assert (Hf1 : f1 !! lp = None).
  { pose proof Hmk as Hmk'. apply mkdir_p_spec in Hmk' as (_ & _ & Hn & _).
    rewrite Hn; [done | by apply not_prefix_of_parent]. }
  rewrite exists_in_nonempty by done.
  rewrite bool_decide_false by (apply eq_None_not_Some; exact Hf1).
  set (w1 := World f1 (clock w)
               (trace w ++ [EvMkdir (parent lp); EvExists lp; EvRemoteGet key lp])).
  assert (Hrest : ∃ m : M response,
            respects grows m ∧
            try_except
              (fs_get R key lp ;;
               f <- open_rb R lp ;;
               ret (StreamingResponse f tile_headers None))
              (λ e, log WARNING ("Tile miss " +:+ key_of R prefix layer timestamp z x row) ;;
                    r <- serve_blank_tile R lp ;;
                    await_object r)
              (World f1 (clock w) (trace w ++ [EvMkdir (parent lp); EvExists lp]))
            = m w1).
  { eexists (try_except
               ((if net_fault R key then raise ConnectionError
                 else match bucket R !! key with
                      | Some data => write_file R lp data
                      | None => raise FileNotFoundError
                      end) ;;
                f <- open_rb R lp ;;
                ret (StreamingResponse f tile_headers None))
               (λ e, log WARNING ("Tile miss " +:+ key_of R prefix layer timestamp z x row) ;;
                     r <- serve_blank_tile R lp ;;
                     await_object r)).
    split.
    - destruct (net_fault R key); [|destruct (bucket R !! key)];
        repeat first [ grows_step | apply grows_open_rb | apply grows_serve_blank_tile ].
    - unfold w1, try_except, fs_get, bind, emit. cbn beta. cbn [fs clock trace].
      rewrite <- app_assoc. reflexivity. }
  destruct Hrest as (m & Hm & ->).
  destruct (Hm w1) as (_ & _ & rest & Ht). rewrite Ht. unfold w1. cbn [trace].
  exists rest. by rewrite <- app_assoc.
Qed.

(** C4: for a request with a registered layer whose row is computed, the
    key is the prefix of the layer followed by [z/x/row.png], without a
    timestamp segment, exactly when the layer is [LightPollution_Tiles]
    and the timestamp is [static]; in every other case, also at the
    timestamp [static] of another layer, it is the prefix followed by the
    timestamp and then [z/x/row.png].  Where timestamp and row have no
    slash, the segments of the first are those of the prefix and three
    more, and those of the second are those of the prefix, the timestamp
    and three more.  This key names the object that the HEAD handler
    looks for and that the GET handler downloads when the tile is not in
    the cache. *)
Theorem key_omits_timestamp_iff_static_layer R layer prefix timestamp z x y row :
  LAYER_PATHS !! layer = Some prefix →
  slippy_y_from_tms z y = Returns row →
  let tile := str_of_int z +:+ "/" +:+ str_of_int x +:+ "/" +:+ format_num R row +:+ ".png" in
  let without := prefix +:+ "/" +:+ tile in
  let with_timestamp := prefix +:+ "/" +:+ timestamp +:+ "/" +:+ tile in
  let key := key_of R prefix layer timestamp z x row in
  let lp := local_path_of R layer timestamp z x row in
  (key = without ↔ layer = "LightPollution_Tiles" ∧ timestamp = "static") ∧
  (key = with_timestamp ↔ ¬ (layer = "LightPollution_Tiles" ∧ timestamp = "static")) ∧
  (layer ≠ "LightPollution_Tiles" →
     key_of R prefix layer "static" z x row = prefix +:+ "/static/" +:+ tile) ∧
  (has_slash timestamp = false → has_slash (format_num R row) = false →
     split_slash without
     = split_slash prefix ++ [str_of_int z; str_of_int x; format_num R row +:+ ".png"] ∧
     split_slash with_timestamp
     = split_slash prefix
         ++ [timestamp; str_of_int z; str_of_int x; format_num R row +:+ ".png"]) ∧
  (∀ w, fs w !! lp = None →
     ∃ rest,
       trace (snd (head_tile_with_timestamp R layer timestamp z x y w))
       = trace w ++ EvExists lp :: EvRemoteExists (BUCKET +:+ "/" +:+ key) :: rest) ∧
  (∀ w, fs w !! lp = None →
     (∀ q, q ∈ prefixes (parent lp) → is_file (fs w !! q) = false) →
     ∃ rest,
       trace (snd (get_tile_with_timestamp R layer timestamp z x y w))
       = trace w ++ EvMkdir (parent lp) :: EvExists lp
           :: EvRemoteGet (BUCKET +:+ "/" +:+ key) lp :: rest).
Proof.
  intros Hl Hs tile without with_timestamp key lp.
  assert (Hne : without ≠ with_timestamp)
    by apply (key_shapes_differ R prefix timestamp z x row).
  assert (Hkey : s3key key = BUCKET +:+ "/" +:+ key).
  { unfold s3key. f_equal. f_equal. unfold key.
    destruct (key_of_cases R prefix layer timestamp z x row) as [(_ & _ & ->)|[_ ->]];
      apply (registered_prefix_lstrip layer prefix Hl). }
  split; [|split; [|split; [|split; [|split]]]].
  - unfold key.
    destruct (key_of_cases R prefix layer timestamp z x row) as [(H1 & H2 & ->)|[Hn ->]].
    + done.
    + split; [|done]. intros Heq. destruct Hne. symmetry. exact Heq.
  - unfold key.
    destruct (key_of_cases R prefix layer timestamp z x row) as [(H1 & H2 & ->)|[Hn ->]].
    + split; [intros Heq; by destruct Hne | intros Hn; by destruct Hn].
    + done.
  - intros Hlayer.
    destruct (key_of_cases R prefix layer "static" z x row) as [(H1 & _)|[_ ->]]; done.
  - intros Ht Hr.
    assert (Hpng : has_slash (format_num R row +:+ ".png") = false)
      by (by rewrite has_slash_app, Hr).
    unfold without, with_timestamp, tile.
    rewrite !split_slash_app.
    rewrite !(split_slash_no_slash (str_of_int _)) by apply has_slash_str_of_int.
    by rewrite (split_slash_no_slash _ Ht), (split_slash_no_slash _ Hpng).
  - intros w Hlp. rewrite <- Hkey.
    by apply (head_tile_remote_check R layer prefix timestamp z x y row w).
  - intros w Hlp Hfiles. rewrite <- Hkey.
    by apply (get_tile_download R layer prefix timestamp z x y row w).
Qed.

Lemma key_omits_timestamp_iff_static_layer_witness :
  key_of plain_runtime "light-pollution-data/zenith_ConUSA_colored_tiles"
    "LightPollution_Tiles" "static" 3 2 (PyInt 2)
  = "light-pollution-data/zenith_ConUSA_colored_tiles/3/2/2.png" ∧
  key_of plain_runtime "data-layer-tiles/SkyCover_Tiles" "SkyCover_Tiles" "static"
    3 2 (PyInt 2)
  = "data-layer-tiles/SkyCover_Tiles/static/3/2/2.png" ∧
  split_slash "data-layer-tiles/SkyCover_Tiles/static/3/2/2.png"
  = ["data-layer-tiles"; "SkyCover_Tiles"; "static"; "3"; "2"; "2.png"].
Proof.
  destruct (key_omits_timestamp_iff_static_layer plain_runtime "LightPollution_Tiles"
              "light-pollution-data/zenith_ConUSA_colored_tiles" "static" 3 2 5 (PyInt 2)
              eq_refl eq_refl) as ([_ H1] & _).
  destruct (key_omits_timestamp_iff_static_layer plain_runtime "SkyCover_Tiles"
              "data-layer-tiles/SkyCover_Tiles" "static" 3 2 5 (PyInt 2)
              eq_refl eq_refl) as (_ & _ & H2 & H3 & _).
  split; [exact (H1 (conj eq_refl eq_refl))|].
  split; [apply H2; discriminate|].
  destruct (H3 eq_refl eq_refl) as [_ H4]. exact H4.
Defined.
